(** * StreakBot: cookie normalisation, streak detection and the vote flow

    A shallow embedding of [reddit_streak.py].  Python strings are Rocq
    strings whose characters are read as code points below 256; Python
    values that come out of [json.load] are the inductive [pyval]; the
    browser, the file system and the random generator are an explicit
    [world] that answers each call from the history of calls made so far. *)

From Stdlib Require Import ZArith List String Ascii Bool Lia SpecFloat.
Import ListNotations.
From Stdlib Require DecimalString.

Set Warnings "-register-all".
Local Open Scope list_scope.
Local Open Scope string_scope.

(** ** Python string methods *)

Module PyStr.

Definition tab : ascii := Ascii.ascii_of_nat 9.
Definition TAB : string := String tab EmptyString.

(** [str.isspace] on one code point below 256. *)
Definition is_space (c : ascii) : bool :=
  let n := Ascii.nat_of_ascii c in
  (((9 <=? n) && (n <=? 13)) || ((28 <=? n) && (n <=? 32))
   || (n =? 133) || (n =? 160))%nat.

(** [s.startswith(p)] *)
Definition startswith (s p : string) : bool := String.prefix p s.

(** [needle in s] for two strings. *)
Fixpoint contains (needle s : string) : bool :=
  String.prefix needle s ||
  match s with
  | EmptyString => false
  | String _ r => contains needle r
  end.

Fixpoint lstrip (s : string) : string :=
  match s with
  | EmptyString => EmptyString
  | String c r => if is_space c then lstrip r else s
  end.

Fixpoint rstrip (s : string) : string :=
  match s with
  | EmptyString => EmptyString
  | String c r =>
      match rstrip r with
      | EmptyString => if is_space c then EmptyString else String c EmptyString
      | r' => String c r'
      end
  end.

(** [s.strip()] *)
Definition strip (s : string) : string := rstrip (lstrip s).

(** [c.lower()] on one code point below 256: A-Z and the Latin-1 capitals. *)
Definition lower_char (c : ascii) : ascii :=
  let n := Ascii.nat_of_ascii c in
  if (((65 <=? n) && (n <=? 90)) || ((192 <=? n) && (n <=? 214))
      || ((216 <=? n) && (n <=? 222)))%nat
  then Ascii.ascii_of_nat (n + 32) else c.

(** [s.lower()] *)
Fixpoint lower (s : string) : string :=
  match s with
  | EmptyString => EmptyString
  | String c r => String (lower_char c) (lower r)
  end.

(** [s.split(sep)] for a one-character separator. *)
Fixpoint split (sep : ascii) (s : string) : list string :=
  match s with
  | EmptyString => [EmptyString]
  | String c r =>
      if Ascii.eqb c sep then EmptyString :: split sep r
      else match split sep r with
           | [] => [String c EmptyString]
           | p :: ps => String c p :: ps
           end
  end.

(** [s.split("\t")] *)
Definition split_tab (s : string) : list string := split tab s.

(** ["\t".join(parts)] *)
Definition join_tab (parts : list string) : string := String.concat TAB parts.

Definition is_decimal (c : ascii) : bool :=
  let n := Ascii.nat_of_ascii c in ((48 <=? n) && (n <=? 57))%nat.

Fixpoint all_chars (p : ascii -> bool) (s : string) : bool :=
  match s with
  | EmptyString => true
  | String c r => p c && all_chars p r
  end.


(** [s.isdigit()]: the decimal digits and the three superscript digits of
    Latin-1, on a non-empty string. *)
Definition is_digit_char (c : ascii) : bool :=
  let n := Ascii.nat_of_ascii c in
  is_decimal c || ((n =? 178) || (n =? 179) || (n =? 185))%nat.

Definition isdigit (s : string) : bool :=
  match s with
  | EmptyString => false
  | _ => all_chars is_digit_char s
  end.

(** The digits of an [int(...)] literal: decimal digits, single underscores
    only between two digits. *)
Fixpoint digits_val (acc : Z) (after_digit : bool) (s : string) : option Z :=
  match s with
  | EmptyString => if after_digit then Some acc else None
  | String c r =>
      if is_decimal c
      then digits_val (10 * acc + Z.of_nat (Ascii.nat_of_ascii c - 48))%Z true r
      else if Ascii.eqb c "_"
           then if after_digit then digits_val acc false r else None
           else None
  end.

(** [int(s)] for a string: [None] is [ValueError].  (The interpreter's limit
    on the number of digits is not modelled.) *)
Definition py_int (s : string) : option Z :=
  match strip s with
  | String "+" r => digits_val 0%Z false r
  | String "-" r => option_map Z.opp (digits_val 0%Z false r)
  | t => digits_val 0%Z false t
  end.

End PyStr.

(** ** Python values and exceptions *)

(** What [json.load] can return.  A [PDict] lists the items of the Python
    dict, so its keys are distinct. *)
Inductive pyval : Type :=
  | PNone
  | PBool (b : bool)
  | PInt (z : Z)
  | PFloat (f : spec_float)
  | PStr (s : string)
  | PList (l : list pyval)
  | PDict (d : list (string * pyval)).

Inductive exn : Type :=
  | TypeError | ValueError | OverflowError | AttributeError | OSError.

Inductive result (A : Type) : Type :=
  | Ok (a : A)
  | Raise (e : exn).
Arguments Ok {A} a.
Arguments Raise {A} e.

Module PyVal.

(** [bool(v)] *)
Definition truthy (v : pyval) : bool :=
  match v with
  | PNone => false
  | PBool b => b
  | PInt z => negb (Z.eqb z 0)
  | PFloat (S754_zero _) => false
  | PFloat _ => true
  | PStr s => negb (String.eqb s EmptyString)
  | PList l => match l with [] => false | _ => true end
  | PDict d => match d with [] => false | _ => true end
  end.

(** [d.get(k)] on the items of a dict. *)
Fixpoint dict_get (k : string) (d : list (string * pyval)) : option pyval :=
  match d with
  | [] => None
  | (k', v) :: r => if String.eqb k k' then Some v else dict_get k r
  end.

(** [c.get(k, default)]; [AttributeError] when [c] is not a dict. *)
Definition get (c : pyval) (k : string) (default : pyval) : result pyval :=
  match c with
  | PDict d => Ok (match dict_get k d with Some v => v | None => default end)
  | _ => Raise AttributeError
  end.

Definition is_str (s : string) (v : pyval) : bool :=
  match v with PStr t => String.eqb s t | _ => false end.

(** [s in v] for a string [s]: substring of a string, member of a list, key
    of a dict, [TypeError] on anything else. *)
Definition str_in (s : string) (v : pyval) : result bool :=
  match v with
  | PStr t => Ok (PyStr.contains s t)
  | PList l => Ok (existsb (is_str s) l)
  | PDict d => Ok (existsb (fun kv => String.eqb s (fst kv)) d)
  | _ => Raise TypeError
  end.

(** [int(f)] for a float: truncation towards zero. *)
Definition int_of_float (f : spec_float) : result Z :=
  match f with
  | S754_zero _ => Ok 0%Z
  | S754_infinity _ => Raise OverflowError
  | S754_nan => Raise ValueError
  | S754_finite s m e =>
      let mag := if (0 <=? e)%Z then Z.shiftl (Zpos m) e
                 else Z.shiftr (Zpos m) (- e) in
      Ok (if s then (- mag)%Z else mag)
  end.

Section Float.

(** [float(s)] for a string is the interpreter's decimal-to-binary64
    conversion; it is a parameter of the development ([None] is
    [ValueError]). *)
Variable float_of_str : string -> option spec_float.

(** [float(v)]: integers round to the nearest binary64, ties to even. *)
Definition float_of (v : pyval) : result spec_float :=
  match v with
  | PBool b => Ok (binary_normalize 53 1024 (if b then 1 else 0) 0 false)
  | PInt z =>
      match binary_normalize 53 1024 z 0 false with
      | S754_infinity _ => Raise OverflowError
      | f => Ok f
      end
  | PFloat f => Ok f
  | PStr s => match float_of_str s with
              | Some f => Ok f
              | None => Raise ValueError
              end
  | PNone | PList _ | PDict _ => Raise TypeError
  end.

(** [int(float(v))] *)
Definition int_float (v : pyval) : result Z :=
  match float_of v with
  | Ok f => int_of_float f
  | Raise e => Raise e
  end.

End Float.

End PyVal.

(** ** CookieNormalizer *)

(** The dict handed to [context.add_cookies]; [expires] is [None] when the
    key is not set. *)
Record cookie : Type := mkCookie {
  name : pyval;
  value : pyval;
  domain : string;
  path : pyval;
  secure : pyval;
  httpOnly : pyval;
  sameSite : string;
  expires : option Z
}.

(** One entry of the cookie jar that [browser_cookie3.chrome] returns. *)
Record jar_cookie : Type := mkJar {
  jc_name : string;
  jc_value : string;
  jc_domain : string;
  jc_path : string;
  jc_secure : bool;
  jc_httponly : bool;        (* has_nonstandard_attr("HttpOnly") *)
  jc_expires : option Z
}.

(** What the Chrome profile gives: the import fails, the extraction raises,
    or a jar comes back. *)
Inductive chrome_profile : Type :=
  | NotInstalled
  | ExtractionFailed
  | CookieJar (cj : list jar_cookie).

Module CookieNormalizer.

Import PyStr PyVal.

(** The spec's wording of the domain rule: a domain that starts with a dot is
    kept, any other gets a dot in front. *)
Definition leading_dot (d : string) : string :=
  if startswith d "." then d else "." ++ d.

(** *** load_cookies_from_chrome *)

Definition chrome_cookie (c : jar_cookie) : cookie :=
  let domain := if startswith (jc_domain c) "." then jc_domain c
                else "." ++ jc_domain c in
  {| name := PStr (jc_name c);
     value := PStr (jc_value c);
     domain := domain;
     path := PStr (if String.eqb (jc_path c) "" then "/" else jc_path c);
     secure := PBool (jc_secure c);
     httpOnly := PBool (jc_httponly c || false);
     sameSite := "Lax";
     expires := match jc_expires c with
                | Some e => if Z.eqb e 0 then None else Some e
                | None => None
                end |}.

Definition load_cookies_from_chrome (profile : chrome_profile) : list cookie :=
  match profile with
  | NotInstalled => []
  | ExtractionFailed => []
  | CookieJar cj => fold_left (fun out c => (out ++ [chrome_cookie c])%list) cj []
  end.

(** *** load_cookies_from_json *)

Definition same_site_map : list (string * string) :=
  [("no_restriction", "None"); ("strict", "Strict"); ("lax", "Lax")].

Fixpoint lookup (k : string) (m : list (string * string)) : option string :=
  match m with
  | [] => None
  | (k', v) :: r => if String.eqb k k' then Some v else lookup k r
  end.

(** [same_site_map[ss] if ss in same_site_map else "Lax"]; a list or a dict
    is not hashable. *)
Definition same_site_of (ss : pyval) : result string :=
  match ss with
  | PStr s => Ok (match lookup s same_site_map with
                  | Some v => v
                  | None => "Lax"
                  end)
  | PList _ | PDict _ => Raise TypeError
  | _ => Ok "Lax"
  end.

(** [if not isinstance(data, list): data = [data]] *)
Definition entries (data : pyval) : list pyval :=
  match data with PList l => l | _ => [data] end.

Section Json.

Variable float_of_str : string -> option spec_float.

(** The expiry of one entry. *)
Definition json_expires (c : pyval) : result (option Z) :=
  match get c "expirationDate" PNone, get c "session" PNone with
  | Ok exp, Ok session =>
      if truthy session then Ok None
      else match exp with
           | PNone => Ok None
           | _ => match int_float float_of_str exp with
                  | Ok z => Ok (Some z)
                  | Raise TypeError | Raise ValueError => Ok None
                  | Raise e => Raise e
                  end
           end
  | Raise e, _ | _, Raise e => Raise e
  end.

(** The body of the loop over the entries: [Ok None] is [continue]. *)
Definition json_cookie (domain_filter : string) (c : pyval)
  : result (option cookie) :=
  match get c "domain" (PStr "") with
  | Raise e => Raise e
  | Ok dom =>
      match str_in domain_filter dom with
      | Raise e => Raise e
      | Ok false => Ok None
      | Ok true =>
          match dom with
          | PStr d =>
              let domain := if negb (startswith d ".") then "." ++ d else d in
              match json_expires c with
              | Raise e => Raise e
              | Ok expires =>
                  match get c "sameSite" PNone with
                  | Raise e => Raise e
                  | Ok ss =>
                      match same_site_of ss,
                            get c "name" (PStr ""), get c "value" (PStr ""),
                            get c "path" (PStr "/"),
                            get c "secure" (PBool false),
                            get c "httpOnly" (PBool false) with
                      | Ok same_site, Ok n, Ok v, Ok p, Ok s, Ok h =>
                          Ok (Some {| name := n; value := v; domain := domain;
                                      path := p; secure := s; httpOnly := h;
                                      sameSite := same_site;
                                      expires := expires |})
                      | Raise e, _, _, _, _, _ => Raise e
                      | _, Raise e, _, _, _, _ => Raise e
                      | _, _, Raise e, _, _, _ => Raise e
                      | _, _, _, Raise e, _, _ => Raise e
                      | _, _, _, _, Raise e, _ => Raise e
                      | _, _, _, _, _, Raise e => Raise e
                      end
                  end
              end
          | _ => Raise AttributeError     (* domain.startswith *)
          end
      end
  end.

Fixpoint json_loop (domain_filter : string) (data : list pyval)
    (out : list cookie) : result (list cookie) :=
  match data with
  | [] => Ok out
  | c :: rest =>
      match json_cookie domain_filter c with
      | Raise e => Raise e
      | Ok None => json_loop domain_filter rest out
      | Ok (Some k) => json_loop domain_filter rest (out ++ [k])%list
      end
  end.

(** [data] is what [json.load] returned for the file. *)
Definition load_cookies_from_json (data : pyval) (domain_filter : string)
  : result (list cookie) :=
  let data := entries data in
  json_loop domain_filter data [].

End Json.

(** *** load_cookies_from_netscape_file *)

(** The body of the loop over the lines: [None] is [continue]. *)
Definition netscape_cookie (domain_filter : string) (line : string)
  : option cookie :=
  let line := strip line in
  if String.eqb line "" || startswith line "#" then None
  else
    let parts := split_tab line in
    if (List.length parts <? 7)%nat then None
    else
      let domain := nth 0 parts "" in
      let path := nth 2 parts "" in
      let secure := nth 3 parts "" in
      let expires := nth 4 parts "" in
      let name := nth 5 parts "" in
      let value := join_tab (skipn 6 parts) in
      if negb (contains domain_filter domain) then None
      else
        let exp := match py_int expires with
                   | Some z => z
                   | None => (-1)%Z
                   end in
        Some {| name := PStr name;
                value := PStr value;
                domain := if startswith domain "." then domain
                          else "." ++ domain;
                path := PStr path;
                secure := PBool (String.eqb (lower secure) "true");
                httpOnly := PBool false;
                sameSite := "Lax";
                expires := if (0 <=? exp)%Z then Some exp else None |}.

Fixpoint netscape_loop (domain_filter : string) (lines : list string)
    (cookies : list cookie) : list cookie :=
  match lines with
  | [] => cookies
  | line :: rest =>
      match netscape_cookie domain_filter line with
      | None => netscape_loop domain_filter rest cookies
      | Some c => netscape_loop domain_filter rest (cookies ++ [c])%list
      end
  end.

(** The records of one line, as a list. *)
Definition line_cookies (filter : string) (line : string) : list cookie :=
  match netscape_cookie filter line with
  | Some c => [c]
  | None => []
  end.

(** [lines] are the lines of the file as the iteration over it yields them. *)
Definition load_cookies_from_netscape_file (lines : list string)
    (domain_filter : string) : list cookie :=
  netscape_loop domain_filter lines [].

End CookieNormalizer.

(** ** Paths *)

(** A [pathlib] path of the POSIX flavour: whether it is anchored at the
    root, and its components. *)
Record fspath : Type := mkPath {
  anchored : bool;
  parts : list string
}.

Module PyPath.

Import PyStr.

Definition keep_part (p : string) : bool :=
  negb (String.eqb p "") && negb (String.eqb p ".").

(** [Path(s)] *)
Definition Path (s : string) : fspath :=
  {| anchored := startswith s "/";
     parts := filter keep_part (split "/" s) |}.

(** [p.is_absolute()] *)
Definition is_absolute (p : fspath) : bool := anchored p.

(** [base / p] *)
Definition joinpath (base p : fspath) : fspath :=
  if anchored p then p
  else {| anchored := anchored base; parts := (parts base ++ parts p)%list |}.

Fixpoint rfind_dot (s : string) : option nat :=
  match s with
  | EmptyString => None
  | String c r =>
      match rfind_dot r with
      | Some i => Some (S i)
      | None => if Ascii.eqb c "." then Some 0%nat else None
      end
  end.

(** [p.suffix] *)
Definition suffix (p : fspath) : string :=
  let name := last (parts p) "" in
  match rfind_dot name with
  | Some i =>
      if ((0 <? i) && (i <? String.length name - 1))%nat
      then String.substring i (String.length name - i) name
      else ""
  | None => ""
  end.

End PyPath.

(** ** Configuration *)

(** The keys of the configuration that the two flows read.  [None] is an
    absent (or null) key. *)
Record config : Type := mkConfig {
  cfg_subreddits : option (list string + string);
  cfg_subreddit : option string;
  cfg_wait_seconds_min : Z;
  cfg_wait_seconds_max : Z;
  cfg_reddit_username : option string;
  cfg_streak_check_url : option string;
  cfg_upvoted_page_url : option string;
  cfg_use_chrome_cookies : option bool;
  cfg_cookies_file : option string;
  cfg_test_mode : bool
}.

Module Config.

Import PyStr.

Definition nonempty (s : string) : bool := negb (String.eqb s "").

Definition get_subreddits (cfg : config) : list string :=
  match cfg_subreddits cfg with
  | Some (inl ((_ :: _) as raw)) => map strip (filter nonempty raw)
  | Some (inr raw) =>
      if nonempty raw then [strip raw]
      else match cfg_subreddit cfg with
           | Some s => if nonempty s then [strip s] else []
           | None => []
           end
  | _ =>
      match cfg_subreddit cfg with
      | Some s => if nonempty s then [strip s] else []
      | None => []
      end
  end.

Definition or_empty (o : option string) : string :=
  match o with Some s => s | None => "" end.

Definition get_user_urls (cfg : config) : string * string :=
  let username := strip (or_empty (cfg_reddit_username cfg)) in
  let streak := strip (or_empty (cfg_streak_check_url cfg)) in
  let upvoted := strip (or_empty (cfg_upvoted_page_url cfg)) in
  if nonempty username then
    (if nonempty streak then streak
     else "https://www.reddit.com/user/" ++ username
          ++ "/achievements/category/3/",
     if nonempty upvoted then upvoted
     else "https://www.reddit.com/user/" ++ username ++ "/upvoted/")
  else (streak, upvoted).

End Config.

(** ** The browser, seen as a history of calls *)

Inductive level : Type := DEBUG | INFO | WARNING | ERROR.

(** The selectors the flows hand to [page.locator]; the selector text of the
    source is given with each use below. *)
Inductive selector : Type :=
  | FireImage | CurrentStreak
  | ListPostIcon | ListPostAria | ListPostRole | ListPageIcon | ListPageAria
  | PostSlotUpvote | PostShredditUpvote | PostPageUpvote
  | UnSlotUpvotePressed | UnSlotPressed | UnUpvotePressed | UnShredditFill
  | UnShredditPressed | UnPageFill | UnPageUnvote | UnPageUpvote.

(** The [i]-th handle of [page.locator(sel).all()]. *)
Definition element : Type := (selector * nat)%type.

(** [time.sleep]: a fixed delay, or the wait drawn by [random.uniform]. *)
Inductive delay : Type :=
  | Millis (ms : Z)
  | Drawn (lo hi : Z).

Inductive action : Type :=
  | ALog (lvl : level) (msg : string)
  | ALaunch                              (* p.chromium.launch *)
  | ANewContext                          (* browser.new_context *)
  | AAddCookies (cs : list cookie)       (* context.add_cookies *)
  | ANewPage                             (* context.new_page *)
  | ALaunchPersistent                    (* launch_persistent_context *)
  | APages                               (* context.pages *)
  | ABringToFront
  | ASetDefaultTimeout (ms : Z)
  | ASleep (d : delay)
  | AGoto (url : string)
  | AWaitLoad                            (* page.wait_for_load_state *)
  | AAll (sel : selector)                (* page.locator(sel).all() *)
  | AWaitVisible (sel : selector)        (* locator.first.wait_for *)
  | AGetAttribute (sel : selector) (attr : string)
  | AInnerText (sel : selector)
  | AScroll (e : element)                (* scroll_into_view_if_needed *)
  | AClick (e : element)
  | AEvaluate (e : element)              (* the post-link script *)
  | AContextClose
  | ABrowserClose.

(** Every call the flow has made so far, oldest first, whether it returned
    or raised. *)
Definition history : Type := list action.

(** Everything outside the program.  The three page oracles answer a call
    from the history before it: [returns] says whether a call without a
    result returns ([false]: it raises), [count] and [text] give the result
    of a query ([None]: it raises). *)
Record world : Type := mkWorld {
  script_dir : list string;
  fs_exists : fspath -> bool;
  fs_json : fspath -> result pyval;
  fs_lines : fspath -> result (list string);
  chrome : chrome_profile;
  rand_subreddit : nat;
  rand_post : nat;
  returns : history -> action -> bool;
  count : history -> action -> option nat;
  text : history -> action -> option (option string)
}.

(** How a block of the flow ends: it falls through with a value, executes a
    [return], or raises an exception. *)
Inductive outcome (A : Type) : Type :=
  | Val (a : A)
  | Ret (b : bool)
  | Exc.
Arguments Val {A} a.
Arguments Ret {A} b.
Arguments Exc {A}.

Definition M (A : Type) : Type := history -> outcome A * history.

Module Run.

Definition pure {A} (a : A) : M A := fun h => (Val a, h).

Definition bind {A B} (m : M A) (k : A -> M B) : M B :=
  fun h =>
    match m h with
    | (Val a, h') => k a h'
    | (Ret b, h') => (Ret b, h')
    | (Exc, h') => (Exc, h')
    end.

(** [return b] *)
Definition ret {A} (b : bool) : M A := fun h => (Ret b, h).

Definition raise {A} : M A := fun h => (Exc, h).

Definition lift {A} (r : result A) : M A :=
  match r with
  | Ok a => pure a
  | Raise _ => raise
  end.

Definition emit (a : action) : M unit := fun h => (Val tt, (h ++ [a])%list).

(** [try: m  except Exception: pass], with [fallback] for what [m] would
    have assigned. *)
Definition attempt {A} (m : M A) (fallback : A) : M A :=
  fun h =>
    match m h with
    | (Exc, h') => (Val fallback, h')
    | r => r
    end.

(** [try: body  except Exception: handler  finally: final] *)
Definition try_except_finally {A} (body handler : M A) (final : M unit)
  : M A :=
  fun h =>
    let (o, h1) := body h in
    let (o', h2) := match o with
                    | Exc => handler h1
                    | _ => (o, h1)
                    end in
    let (f, h3) := final h2 in
    match f with
    | Val _ => (o', h3)
    | Ret b => (Ret b, h3)
    | Exc => (Exc, h3)
    end.

End Run.

Declare Scope flow_scope.
Delimit Scope flow_scope with flow.
Notation "x <- m ;; k" := (Run.bind m (fun x => k))
  (at level 61, m at next level, right associativity) : flow_scope.
Notation "m ;; k" := (Run.bind m (fun _ => k))
  (at level 61, right associativity) : flow_scope.

(** ** StreakDetector *)

Module StreakDetector.

Import PyStr Run.
Local Open Scope flow_scope.




(** The expression that [check_streak_on_page] assigns to [reached]. *)
Definition reached_today (src alt : string) : bool :=
  negb (contains "fire-faded" src || contains "not been reached" (lower alt))
  && (contains "fire.png" src || contains "has been reached" (lower alt)).

(** The status line that [run_streak_check] logs. *)
Definition status_line (src alt : string) : action :=
  if contains "fire-faded" src || contains "not been reached" (lower alt)
  then ALog INFO "Streak status: NOT reached today (fire-faded). You still need to upvote today."
  else if contains "fire.png" src || contains "has been reached" (lower alt)
       then ALog INFO "Streak status: Reached today (fire). You're good."
       else ALog WARNING "Streak status: unknown (src=%s, alt=%s)".

Section Page.

Variable w : world.

(** A call without a result. *)
Definition call (a : action) : M unit :=
  fun h => (if returns w h a then Val tt else Exc, (h ++ [a])%list).

(** [page.locator(sel).all()] *)
Definition locator_all (sel : selector) : M (list element) :=
  fun h =>
    (match count w h (AAll sel) with
     | Some n => Val (map (fun i => (sel, i)) (seq 0 n))
     | None => Exc
     end, (h ++ [AAll sel])%list).

(** [context.pages], as the number of pages. *)
Definition pages : M nat :=
  fun h =>
    (match count w h APages with
     | Some n => Val n
     | None => Exc
     end, (h ++ [APages])%list).

(** A query whose result is a string or [None]. *)
Definition query (a : action) : M (option string) :=
  fun h =>
    (match text w h a with
     | Some r => Val r
     | None => Exc
     end, (h ++ [a])%list).

Definition log (lvl : level) (msg : string) : M unit := emit (ALog lvl msg).

Definition sleep (d : delay) : M unit := emit (ASleep d).

Definition or_empty (o : option string) : string :=
  match o with Some s => s | None => "" end.

(** The day count: [span.current-streak], read inside its own
    [try ... except Exception: pass]. *)
Definition read_streak_days : M (option Z) :=
  attempt
    (t <- query (AInnerText CurrentStreak) ;;
     let text := or_empty t in
     if negb (String.eqb text "") && isdigit (strip text)
     then match py_int (strip text) with
          | Some d => pure (Some d)
          | None => raise
          end
     else pure None)
    None.

Definition check_streak_on_page (streak_url : string)
  : M (bool * option Z) :=
  call (AGoto streak_url) ;;
  call AWaitLoad ;;
  sleep (Millis 2000) ;;
  (* img[data-testid="streak-fire-image"] *)
  call (AWaitVisible FireImage) ;;
  s <- query (AGetAttribute FireImage "src") ;;
  a <- query (AGetAttribute FireImage "alt") ;;
  let src := or_empty s in
  let alt := or_empty a in
  let reached := reached_today src alt in
  streak_days <- read_streak_days ;;
  pure (reached, streak_days).

End Page.

End StreakDetector.

(** ** SessionBootstrapper: what the two flows share *)

Module Session.

Import PyStr PyPath CookieNormalizer Run StreakDetector.
Local Open Scope flow_scope.

Section Bootstrap.

Variable float_of_str : string -> option spec_float.
Variable w : world.

(** [Path(__file__).resolve().parent] *)
Definition script_parent : fspath :=
  {| anchored := true; parts := script_dir w |}.

(** The loader is chosen by the suffix of the file; an unreadable or
    malformed file raises. *)
Definition read_cookies (cookies_path : fspath) : M (list cookie) :=
  if String.eqb (lower (suffix cookies_path)) ".json"
  then lift (match fs_json w cookies_path with
             | Ok data => load_cookies_from_json float_of_str data "reddit.com"
             | Raise e => Raise e
             end)
  else lift (match fs_lines w cookies_path with
             | Ok lines => Ok (load_cookies_from_netscape_file lines "reddit.com")
             | Raise e => Raise e
             end).

Definition is_nil {A} (l : list A) : bool :=
  match l with [] => true | _ => false end.

End Bootstrap.

End Session.

(** ** VoteFlowStateMachine: run_upvote_flow *)

(** The local variables of [run_upvote_flow] that outlive the set-up. *)
Record locals : Type := mkLocals {
  url : string;
  wait_seconds : delay;
  streak_url : string;
  browser : bool               (* [browser is not None] *)
}.

Module VoteFlow.

Import PyStr PyPath Config CookieNormalizer Run StreakDetector Session.
Local Open Scope flow_scope.

Section Flow.

Variable float_of_str : string -> option spec_float.
Variable w : world.

(** Lines 188-194: the configured cookie file, made absolute against the
    directory of the script. *)
Definition cookies_path (cfg : config) : option fspath :=
  match cfg_cookies_file cfg with
  | Some cookies_file =>
      if nonempty cookies_file then
        let cookies_path := Path cookies_file in
        Some (if negb (is_absolute cookies_path)
              then joinpath (script_parent w) cookies_path
              else cookies_path)
      else None
  | None => None
  end.

(** Lines 199-216: the cookie-file branch. *)
Definition auth_cookies_file (cookies_path : fspath) : M bool :=
  log INFO "Auth: using cookies file %s (our own window)" ;;
  call w ALaunch ;;
  call w ANewContext ;;
  cookies <- read_cookies float_of_str w cookies_path ;;
  (if negb (is_nil cookies)
   then call w (AAddCookies cookies) ;;
        log INFO "Loaded %d cookies from %s"
   else log WARNING "No Reddit cookies found in %s") ;;
  call w ANewPage ;;
  log DEBUG "Created new page (cookies context)" ;;
  call w ABringToFront ;;
  pure true.

(** Lines 218-232: the Chrome-profile branch. *)
Definition auth_chrome : M bool :=
  log INFO "Auth: grabbing cookies from Chrome profile, using our own window" ;;
  call w ALaunch ;;
  call w ANewContext ;;
  let cookies := load_cookies_from_chrome (chrome w) in
  if is_nil cookies
  then log ERROR "No Reddit cookies from Chrome. Log in to Reddit in Chrome first, or use cookies_file." ;;
       call w ABrowserClose ;;
       ret false
  else call w (AAddCookies cookies) ;;
       log INFO "Loaded %d cookies from Chrome profile" ;;
       call w ANewPage ;;
       call w ABringToFront ;;
       pure true.

(** Lines 234-245: the persistent-profile branch. *)
Definition auth_persistent : M bool :=
  log INFO "Auth: using script browser profile at %s" ;;
  call w ALaunchPersistent ;;
  log DEBUG "Persistent context launched" ;;
  log INFO "Waiting 4s for browser to finish loading..." ;;
  sleep (Millis 4000) ;;
  n <- pages w ;;
  (if (0 <? n)%nat then pure tt else call w ANewPage) ;;
  _ <- pages w ;;
  log INFO "Using %s for Reddit" ;;
  call w ABringToFront ;;
  pure false.

Definition use_chrome_cookies (cfg : config) : bool :=
  match cfg_use_chrome_cookies cfg with
  | Some b => b
  | None => true
  end.

(** Lines 198, 217, 233: the three-way choice. *)
Definition open_session (cfg : config) : M bool :=
  match cookies_path cfg with
  | Some p =>
      if fs_exists w p then auth_cookies_file p
      else if use_chrome_cookies cfg then auth_chrome
           else auth_persistent
  | None =>
      if use_chrome_cookies cfg then auth_chrome else auth_persistent
  end.

(** Lines 174-247: everything before the [try]. *)
Definition setup (cfg : config) : M locals :=
  let subreddits := get_subreddits cfg in
  if is_nil subreddits
  then (* the message goes on to show the two keys to set *)
       log ERROR "No subreddit(s) in config." ;; ret false
  else
    let subreddit :=
      nth (rand_subreddit w mod List.length subreddits) subreddits "" in
    let url := "https://www.reddit.com/r/" ++ subreddit ++ "/top/?t=day" in
    let wait_seconds :=
      Drawn (cfg_wait_seconds_min cfg) (cfg_wait_seconds_max cfg) in
    log INFO "Starting upvote flow" ;;
    let streak_check_url := fst (get_user_urls cfg) in
    browser <- open_session cfg ;;
    call w (ASetDefaultTimeout 30000) ;;
    pure {| url := url; wait_seconds := wait_seconds;
            streak_url := streak_check_url; browser := browser |}.

(** Lines 250-261: the gating check before the vote. *)
Definition check_before (cfg : config) (l : locals) : M unit :=
  if nonempty (streak_url l) then
    log INFO "Checking streak status before upvote..." ;;
    r <- check_streak_on_page w (streak_url l) ;;
    let reached := fst r in
    let days := snd r in
    (match days with
     | Some _ => log INFO "Streak: %d day(s)"
     | None => pure tt
     end) ;;
    if reached && negb (cfg_test_mode cfg)
    then log INFO "Streak already reached today, skipping upvote." ;;
         ret true
    else if reached && cfg_test_mode cfg
         then log INFO "Streak already reached today; test_mode: doing upvote anyway."
         else if negb reached
              then log INFO "Streak not reached today - proceeding with upvote."
              else pure tt
  else pure tt.

(** [upvotes = ...; if not upvotes: upvotes = page.locator(sel).all()] *)
Definition or_else (found : list element) (sel : selector)
  : M (list element) :=
  if is_nil found then locator_all w sel else pure found.

(** Lines 263-371: listing, choice of a post, upvote, wait, removal. *)
Definition vote (l : locals) : M unit :=
  log INFO "Navigating to %s" ;;
  call w ABringToFront ;;
  call w (AGoto (url l)) ;;
  call w AWaitLoad ;;
  log INFO "Waiting 3s for vote buttons to render..." ;;
  sleep (Millis 3000) ;;
  (* shreddit-post button:has([icon-name="upvote"]) *)
  upvotes <- locator_all w ListPostIcon ;;
  (* shreddit-post button[aria-label="upvote"] *)
  upvotes <- or_else upvotes ListPostAria ;;
  (* shreddit-post [role="button"][aria-label="upvote"] *)
  upvotes <- or_else upvotes ListPostRole ;;
  (* button:has([icon-name="upvote"]) *)
  upvotes <- (if is_nil upvotes
              then log DEBUG "No upvote in shreddit-post, trying page-wide selectors" ;;
                   locator_all w ListPageIcon
              else pure upvotes) ;;
  (* button[aria-label="upvote"], [aria-label="upvote"] *)
  upvotes <- or_else upvotes ListPageAria ;;
  if (List.length upvotes <? 1)%nat
  then log ERROR "No upvote buttons found. Are you logged in? Log in to Reddit in the browser." ;;
       call w AContextClose ;;
       ret false
  else
    let n := Nat.min 3 (List.length upvotes) in
    let choice := if (0 <? n)%nat then (rand_post w mod n)%nat else 0%nat in
    let btn := nth choice upvotes (ListPostIcon, 0%nat) in
    log INFO "Found %d real post(s), choosing #%d of top %d" ;;
    call w (AScroll btn) ;;
    sleep (Millis 300) ;;
    post_url <- attempt
                  (url_result <- query w (AEvaluate btn) ;;
                   pure (match url_result with
                         | Some u => if nonempty u then Some u else None
                         | None => None
                         end))
                  None ;;
    match post_url with
    | None =>
        log ERROR "Could not get post URL from chosen post; skipping." ;;
        call w AContextClose ;;
        ret false
    | Some post_url =>
        let post_url_abs :=
          if startswith post_url "http" then post_url
          else "https://www.reddit.com"
               ++ (if startswith post_url "/" then post_url
                   else "/" ++ post_url) in
        log INFO "Opening post: %s" ;;
        call w (AGoto post_url_abs) ;;
        call w AWaitLoad ;;
        sleep (Millis 2000) ;;
        (* [data-post-click-location="vote"] button[upvote] *)
        upvote_btns <- locator_all w PostSlotUpvote ;;
        upvote_btns <- or_else upvote_btns PostShredditUpvote ;;
        upvote_btns <- or_else upvote_btns PostPageUpvote ;;
        (match upvote_btns with
         | b :: _ =>
             call w (AScroll b) ;;
             sleep (Millis 300) ;;
             call w (AClick b) ;;
             log INFO "Upvoted on post page."
         | [] =>
             log WARNING "No upvote button found on post page." ;;
             call w AContextClose ;;
             ret false
         end) ;;
        log INFO "Waiting %.1fs before removing upvote..." ;;
        sleep (wait_seconds l) ;;
        (* [data-post-click-location="vote"] button[upvote][aria-pressed="true"] *)
        unvote_btns <- locator_all w UnSlotUpvotePressed ;;
        unvote_btns <- or_else unvote_btns UnSlotPressed ;;
        unvote_btns <- or_else unvote_btns UnUpvotePressed ;;
        unvote_btns <- or_else unvote_btns UnShredditFill ;;
        unvote_btns <- or_else unvote_btns UnShredditPressed ;;
        unvote_btns <- or_else unvote_btns UnPageFill ;;
        unvote_btns <- or_else unvote_btns UnPageUnvote ;;
        unvote_btns <- or_else unvote_btns UnPageUpvote ;;
        match unvote_btns with
        | b :: _ =>
            call w (AScroll b) ;;
            sleep (Millis 300) ;;
            call w (AClick b) ;;
            log INFO "Removed upvote on post page."
        | [] =>
            log WARNING "No vote button found on post page to remove upvote; upvote may still be active."
        end
    end.

(** Lines 373-381: the check after the removal. *)
Definition check_after (l : locals) : M unit :=
  if nonempty (streak_url l) then
    log INFO "Rechecking streak status after upvote..." ;;
    r <- check_streak_on_page w (streak_url l) ;;
    let reached := fst r in
    let days := snd r in
    (match days with
     | Some _ => log INFO "Streak: %d day(s)"
     | None => pure tt
     end) ;;
    if reached
    then log INFO "Streak status: Reached today."
    else log INFO "Streak status: NOT reached today (may take a moment to update)."
  else pure tt.

(** The body of the [try]. *)
Definition steps (cfg : config) (l : locals) : M unit :=
  check_before cfg l ;; vote l ;; check_after l.

(** [except Exception as e] *)
Definition on_error : M unit :=
  log ERROR "Error during upvote flow: %s" ;; ret false.

(** [finally] *)
Definition teardown (l : locals) : M unit :=
  log DEBUG "Closing context and browser" ;;
  call w AContextClose ;;
  if browser l then call w ABrowserClose else pure tt.

Definition run_upvote_flow (cfg : config) : M unit :=
  l <- setup cfg ;;
  try_except_finally (steps cfg l) on_error (teardown l) ;;
  ret true.

End Flow.

End VoteFlow.

(** ** The standalone streak check: run_streak_check *)

Module StandaloneCheck.

Import PyStr PyPath Config CookieNormalizer Run StreakDetector Session.
Local Open Scope flow_scope.

Section Flow.

Variable float_of_str : string -> option spec_float.
Variable w : world.

(** Lines 428-434. *)
Definition cookies_path (cfg : config) : option fspath :=
  match cfg_cookies_file cfg with
  | Some cookies_file =>
      if nonempty cookies_file then
        let cookies_path := Path cookies_file in
        Some (if negb (is_absolute cookies_path)
              then joinpath (script_parent w) cookies_path
              else cookies_path)
      else None
  | None => None
  end.

(** Lines 439-448. *)
Definition auth_cookies_file (cookies_path : fspath) : M bool :=
  log INFO "Auth: using cookies file %s (test mode)" ;;
  call w ALaunch ;;
  call w ANewContext ;;
  cookies <- read_cookies float_of_str w cookies_path ;;
  (if negb (is_nil cookies)
   then call w (AAddCookies cookies)
   else pure tt) ;;
  call w ANewPage ;;
  pure true.

(** Lines 450-459. *)
Definition auth_chrome : M bool :=
  log INFO "Auth: grabbing cookies from Chrome profile (test mode)" ;;
  call w ALaunch ;;
  call w ANewContext ;;
  let cookies := load_cookies_from_chrome (chrome w) in
  if is_nil cookies
  then log ERROR "No Reddit cookies from Chrome. Log in to Reddit in Chrome first, or use cookies_file." ;;
       call w ABrowserClose ;;
       ret false
  else call w (AAddCookies cookies) ;;
       call w ANewPage ;;
       pure true.

(** Lines 461-468. *)
Definition auth_persistent : M bool :=
  log INFO "Auth: using script browser profile (test mode)" ;;
  call w ALaunchPersistent ;;
  sleep (Millis 4000) ;;
  n <- pages w ;;
  (if (0 <? n)%nat then pure tt else call w ANewPage) ;;
  pure false.

Definition use_chrome_cookies (cfg : config) : bool :=
  match cfg_use_chrome_cookies cfg with
  | Some b => b
  | None => true
  end.

(** Lines 438, 449, 460: the three-way choice. *)
Definition open_session (cfg : config) : M bool :=
  match cookies_path cfg with
  | Some p =>
      if fs_exists w p then auth_cookies_file p
      else if use_chrome_cookies cfg then auth_chrome
           else auth_persistent
  | None =>
      if use_chrome_cookies cfg then auth_chrome else auth_persistent
  end.

(** Lines 472-501: the body of the [try]. *)
Definition report (streak_url : string) : M unit :=
  log INFO "Navigating to achievements page: %s" ;;
  call w (AGoto streak_url) ;;
  call w AWaitLoad ;;
  sleep (Millis 2000) ;;
  call w (AWaitVisible FireImage) ;;
  s <- query w (AGetAttribute FireImage "src") ;;
  a <- query w (AGetAttribute FireImage "alt") ;;
  let src := StreakDetector.or_empty s in
  let alt := StreakDetector.or_empty a in
  streak_days <- read_streak_days w ;;
  (match streak_days with
   | Some _ => log INFO "Streak: %d day(s)"
   | None => log INFO "Streak: day count not found (check page structure)"
   end) ;;
  emit (status_line src alt).

Definition on_error : M unit :=
  log ERROR "Streak check failed: %s" ;; ret false.

Definition teardown (browser : bool) : M unit :=
  call w AContextClose ;;
  if browser then call w ABrowserClose else pure tt.

Definition run_streak_check (cfg : config) : M unit :=
  let streak_url := fst (get_user_urls cfg) in
  if negb (nonempty streak_url)
  then log ERROR "test_mode is true but reddit_username (or streak_check_url) is not set in config." ;;
       ret false
  else
    browser <- open_session cfg ;;
    call w (ASetDefaultTimeout 20000) ;;
    try_except_finally (report streak_url) on_error (teardown browser) ;;
    ret true.

End Flow.

End StandaloneCheck.

(** ** What a history shows *)

Module Trace.

(** A call on a vote button or on the listing's post elements. *)
Definition touches_vote (a : action) : bool :=
  match a with
  | AClick _ | AScroll _ | AEvaluate _ | AAll _ => true
  | _ => false
  end.

Definition is_click (a : action) : bool :=
  match a with AClick _ => true | _ => false end.

Definition is_goto (a : action) : bool :=
  match a with AGoto _ => true | _ => false end.

(** No call on a vote button, and no navigation except to [u]. *)
Definition away_from_votes (u : string) (a : action) : Prop :=
  touches_vote a = false /\ forall v, a = AGoto v -> v = u.

(** Neither a call on a vote button nor a navigation. *)
Definition idle (a : action) : Prop :=
  touches_vote a = false /\ is_goto a = false.

(** Every history that [m] leaves is the one it started from, extended by
    actions that satisfy [P]. *)
Definition traces {A} (P : action -> Prop) (m : M A) : Prop :=
  forall h, exists t, snd (m h) = (h ++ t)%list /\ Forall P t.

(** What the [finally] block of the vote flow appends when its calls
    return. *)
Definition closing (l : locals) : list action :=
  ([ALog DEBUG "Closing context and browser"; AContextClose]
   ++ (if browser l then [ABrowserClose] else []))%list.

(** The verdict of a run whose [try] body ended with outcome [o]. *)
Definition verdict_of (o : outcome unit) : bool :=
  match o with
  | Val _ => true
  | Ret b => b
  | Exc => false
  end.

(** The history after the [except] clause. *)
Definition handled (o : outcome unit) (h : history) : history :=
  match o with
  | Exc => (h ++ [ALog ERROR "Error during upvote flow: %s"])%list
  | _ => h
  end.

(** The line that follows a status check that read a day count. *)
Definition days_line (days : option Z) : list action :=
  match days with
  | Some _ => [ALog INFO "Streak: %d day(s)"]
  | None => []
  end.

End Trace.

(** ** Concrete worlds and configurations *)

Module Scenario.

Import PyStr.

(** No string is a float literal: enough for cookie files without string
    expirations. *)
Definition no_float (s : string) : option spec_float := None.

(** A page on which the fire image is faded, the day count reads 5 and the
    chosen post has a link. *)
Definition calm_text (a : action) : option (option string) :=
  match a with
  | AGetAttribute FireImage "src" =>
      Some (Some "https://www.redditstatic.com/fire-faded.png")
  | AGetAttribute FireImage "alt" => Some (Some "Streak has not been reached")
  | AInnerText _ => Some (Some "5")
  | AEvaluate _ => Some (Some "/r/python/comments/abc/title/")
  | _ => Some None
  end.

(** As [calm_text], with the fire image lit. *)
Definition lit_text (a : action) : option (option string) :=
  match a with
  | AGetAttribute FireImage "src" =>
      Some (Some "https://www.redditstatic.com/fire.png")
  | AGetAttribute FireImage "alt" => Some (Some "Streak has been reached")
  | _ => calm_text a
  end.

(** A cookie line whose value holds a tab. *)
Definition reddit_line : string :=
  ".reddit.com" ++ TAB ++ "TRUE" ++ TAB ++ "/" ++ TAB ++ "TRUE" ++ TAB
  ++ "1900000000" ++ TAB ++ "token_v2" ++ TAB ++ "abc" ++ TAB ++ "def".

Definition one_jar_cookie : jar_cookie :=
  {| jc_name := "reddit_session"; jc_value := "xyz";
     jc_domain := "reddit.com"; jc_path := "/"; jc_secure := true;
     jc_httponly := true; jc_expires := Some 1900000000%Z |}.

(** A JSON entry with a given sameSite value. *)
Definition json_entry (same_site : string) : pyval :=
  PDict [("domain", PStr "www.reddit.com"); ("name", PStr "token_v2");
         ("value", PStr "abc"); ("sameSite", PStr same_site)].

(** Every call returns, every locator finds one element, the user is logged
    in to Reddit in Chrome, and every cookie file exists and is a JSON export
    that holds no cookie. *)
Definition calm : world :=
  {| script_dir := ["opt"; "streakbot"];
     fs_exists := fun _ => true;
     fs_json := fun _ => Ok (PList []);
     fs_lines := fun _ => Ok [];
     chrome := CookieJar [one_jar_cookie];
     rand_subreddit := 0;
     rand_post := 0;
     returns := fun _ _ => true;
     count := fun _ _ => Some 1%nat;
     text := fun _ a => calm_text a |}.

(** As [calm], but Chrome holds no Reddit cookie. *)
Definition logged_out : world :=
  {| script_dir := script_dir calm;
     fs_exists := fs_exists calm;
     fs_json := fs_json calm;
     fs_lines := fs_lines calm;
     chrome := CookieJar [];
     rand_subreddit := 0;
     rand_post := 0;
     returns := returns calm;
     count := count calm;
     text := text calm |}.

(** As [calm], but the streak is already reached. *)
Definition lit : world :=
  {| script_dir := script_dir calm;
     fs_exists := fs_exists calm;
     fs_json := fs_json calm;
     fs_lines := fs_lines calm;
     chrome := chrome calm;
     rand_subreddit := 0;
     rand_post := 0;
     returns := returns calm;
     count := count calm;
     text := fun _ a => lit_text a |}.

(** As [calm], but the fire image never becomes visible once a vote button
    has been clicked. *)
Definition late_timeout : world :=
  {| script_dir := script_dir calm;
     fs_exists := fs_exists calm;
     fs_json := fs_json calm;
     fs_lines := fs_lines calm;
     chrome := chrome calm;
     rand_subreddit := 0;
     rand_post := 0;
     returns := fun h a =>
       match a with
       | AWaitVisible _ => negb (existsb Trace.is_click h)
       | _ => true
       end;
     count := count calm;
     text := text calm |}.

(** One subreddit, a user name, Chrome cookies, no cookie file. *)
Definition base_config : config :=
  {| cfg_subreddits := Some (inl ["python"]);
     cfg_subreddit := None;
     cfg_wait_seconds_min := 1;
     cfg_wait_seconds_max := 2;
     cfg_reddit_username := Some "someone";
     cfg_streak_check_url := None;
     cfg_upvoted_page_url := None;
     cfg_use_chrome_cookies := None;
     cfg_cookies_file := None;
     cfg_test_mode := false |}.

Definition with_cookies_file (f : string) (cfg : config) : config :=
  {| cfg_subreddits := cfg_subreddits cfg;
     cfg_subreddit := cfg_subreddit cfg;
     cfg_wait_seconds_min := cfg_wait_seconds_min cfg;
     cfg_wait_seconds_max := cfg_wait_seconds_max cfg;
     cfg_reddit_username := cfg_reddit_username cfg;
     cfg_streak_check_url := cfg_streak_check_url cfg;
     cfg_upvoted_page_url := cfg_upvoted_page_url cfg;
     cfg_use_chrome_cookies := cfg_use_chrome_cookies cfg;
     cfg_cookies_file := Some f;
     cfg_test_mode := cfg_test_mode cfg |}.

(** A configuration that points at a JSON export beside the script. *)
Definition file_config : config := with_cookies_file "cookies.json" base_config.

Definition no_locals : locals :=
  {| url := ""; wait_seconds := Millis 0; streak_url := ""; browser := false |}.

(** The stages of a run of the vote flow in a given world: the locals and the
    history after the set-up, the histories after the gating check and after
    the vote, and the two status checks where the flow makes them. *)
Definition locals_of (w : world) (cfg : config) : locals :=
  match fst (VoteFlow.setup no_float w cfg []) with
  | Val l => l
  | _ => no_locals
  end.

Definition h_setup (w : world) (cfg : config) : history :=
  snd (VoteFlow.setup no_float w cfg []).

Definition h_before (w : world) (cfg : config) : history :=
  snd (VoteFlow.check_before w cfg (locals_of w cfg) (h_setup w cfg)).

Definition h_vote (w : world) (cfg : config) : history :=
  snd (VoteFlow.vote w (locals_of w cfg) (h_before w cfg)).

Definition before_check (w : world) (cfg : config)
  : outcome (bool * option Z) * history :=
  StreakDetector.check_streak_on_page w (streak_url (locals_of w cfg))
    (h_setup w cfg
     ++ [ALog INFO "Checking streak status before upvote..."])%list.

Definition after_check (w : world) (cfg : config)
  : outcome (bool * option Z) * history :=
  StreakDetector.check_streak_on_page w (streak_url (locals_of w cfg))
    (h_vote w cfg
     ++ [ALog INFO "Rechecking streak status after upvote..."])%list.

End Scenario.
(** ** The entry point: main *)

(** The two keys of the configuration that only [main] reads. *)
Record launch : Type := mkLaunch {
  cfg_run_now : bool;
  cfg_run_time : option string
}.

(** What [time.localtime()] gives, as far as [main] looks at it. *)
Record tm : Type := mkTm {
  tm_hour : Z;
  tm_min : Z
}.

Module Scheduler.

Import PyStr Run StreakDetector.
Local Open Scope flow_scope.

(** [hour, minute = map(int, run_time.split(":"))]: any other number of
    fields, or a field that is not an integer, is a [ValueError]. *)
Definition parse_run_time (run_time : string) : result (Z * Z) :=
  match map py_int (split ":" run_time) with
  | [Some hour; Some minute] => Ok (hour, minute)
  | _ => Raise ValueError
  end.

(** A call whose returned value is dropped; an exception still leaves. *)
Definition discard (m : M unit) : M unit :=
  fun h =>
    match m h with
    | (Ret _, h') => (Val tt, h')
    | r => r
    end.

(** [now.tm_hour == hour and now.tm_min == minute] *)
Definition due (hour minute : Z) (now : tm) : bool :=
  Z.eqb (tm_hour now) hour && Z.eqb (tm_min now) minute.

Section Main.

Variable float_of_str : string -> option spec_float.
Variable w : world.

(** Lines 543-549: one turn of the loop, [now] being the time it reads. *)
Definition poll (cfg : config) (hour minute : Z) (now : tm) : M unit :=
  (if due hour minute now
   then log INFO "Scheduled time reached - starting upvote flow" ;;
        discard (VoteFlow.run_upvote_flow float_of_str w cfg) ;;
        log DEBUG "Sleeping 65s to avoid re-running in same minute" ;;
        sleep (Millis 65000)
   else pure tt) ;;
  sleep (Millis 30000).

(** The first turns of [while True], one for each reading of the clock. *)
Fixpoint loop (cfg : config) (hour minute : Z) (clock : list tm) : M unit :=
  match clock with
  | [] => pure tt
  | now :: later => poll cfg hour minute now ;; loop cfg hour minute later
  end.

(** Lines 525-549, with the configuration that [load_config] returned; a
    missing [run_time] is a [KeyError]. *)
Definition main (cfg : config) (la : launch) (clock : list tm) : M unit :=
  if cfg_test_mode cfg
  then log INFO "test_mode is true - running full upvote flow (even if streak already reached)" ;;
       discard (VoteFlow.run_upvote_flow float_of_str w cfg)
  else if cfg_run_now la
       then log INFO "run_now is true - running once immediately" ;;
            discard (VoteFlow.run_upvote_flow float_of_str w cfg)
       else match cfg_run_time la with
            | None => raise
            | Some run_time =>
                hm <- lift (parse_run_time run_time) ;;
                log INFO "Scheduler started: run daily at %s, subreddits r/%s" ;;
                log INFO "Minimize this window; browser will open at the scheduled time" ;;
                log INFO "First run: log in to Reddit in the browser window when it opens" ;;
                loop cfg (fst hm) (snd hm) clock
            end.

End Main.


(** The three lines that [main] logs before it enters the loop. *)
Definition banner : list action :=
  [ALog INFO "Scheduler started: run daily at %s, subreddits r/%s";
   ALog INFO "Minimize this window; browser will open at the scheduled time";
   ALog INFO "First run: log in to Reddit in the browser window when it opens"].

(** A reading of the clock that [time.localtime] can give. *)
Definition on_the_dial (now : tm) : bool :=
  (0 <=? tm_hour now)%Z && (tm_hour now <? 24)%Z
  && (0 <=? tm_min now)%Z && (tm_min now <? 60)%Z.

End Scheduler.

(** ** Decimal numerals *)

Module Numeral.


End Numeral.

(** ** More on what a history shows *)

Module Trace2.

Import Trace.

(** A query of the status page. *)
Definition reads_status (a : action) : bool :=
  match a with
  | AWaitVisible _ | AGetAttribute _ _ | AInnerText _ => true
  | _ => false
  end.

(** No query of the status page. *)
Definition no_status (a : action) : Prop := reads_status a = false.

(** No click. *)
Definition silent (a : action) : Prop := is_click a = false.

(** The elements clicked, oldest first. *)
Definition clicks (t : history) : list element :=
  flat_map (fun a => match a with AClick e => [e] | _ => [] end) t.

(** The selectors of the upvote control of a post page. *)
Definition upvote_selector (s : selector) : bool :=
  match s with
  | PostSlotUpvote | PostShredditUpvote | PostPageUpvote => true
  | _ => false
  end.

(** The selectors of the control that takes the upvote back. *)
Definition removal_selector (s : selector) : bool :=
  match s with
  | UnSlotUpvotePressed | UnSlotPressed | UnUpvotePressed | UnShredditFill
  | UnShredditPressed | UnPageFill | UnPageUnvote | UnPageUpvote => true
  | _ => false
  end.

(** The first match of one of the selectors [ok]. *)
Definition first_of (ok : selector -> bool) (e : element) : bool :=
  ok (fst e) && Nat.eqb (snd e) 0.

(** At most an upvote and then a removal, each on the first match of its
    selectors. *)
Definition disciplined (c : list element) : bool :=
  match c with
  | [] => true
  | [u] => first_of upvote_selector u
  | [u; r] => first_of upvote_selector u && first_of removal_selector r
  | _ => false
  end.

(** A list of handles that is empty or starts with a first match. *)
Definition head_ok (ok : selector -> bool) (l : list element) : Prop :=
  match l with
  | [] => True
  | e :: _ => first_of ok e = true
  end.

(** The selectors of the vote buttons of the listing. *)
Definition listing_selector (s : selector) : bool :=
  match s with
  | ListPostIcon | ListPostAria | ListPostRole | ListPageIcon
  | ListPageAria => true
  | _ => false
  end.

(** The post-link script runs on one of the first three vote buttons of the
    listing only. *)
Definition picks_top_three (a : action) : bool :=
  match a with
  | AEvaluate e => listing_selector (fst e) && (snd e <? 3)%nat
  | _ => true
  end.

(** The handles of a listing, each at its own index. *)
Definition listed (l : list element) : Prop :=
  forall i, (i < List.length l)%nat ->
            listing_selector (fst (nth i l (ListPostIcon, 0%nat))) = true /\
            snd (nth i l (ListPostIcon, 0%nat)) = i.

(** As [traces], with what holds of the value that [m] gives. *)
Definition yields {A} (P : action -> Prop) (Q : A -> Prop) (m : M A) : Prop :=
  forall h, exists t,
    snd (m h) = (h ++ t)%list /\ Forall P t /\
    forall a, fst (m h) = Val a -> Q a.

(** Whenever [m] returns false, the last call before is the closing of the
    context. *)
Definition closed_on_false {A} (m : M A) : Prop :=
  forall h h', m h = (Ret false, h') ->
  exists h1, h' = (h1 ++ [AContextClose])%list.

(** Every run of [m] extends the history by actions whose clicks, with the
    way the run ends, satisfy [S]. *)
Definition spec {A} (S : outcome A -> list element -> Prop) (m : M A)
  : Prop :=
  forall h, exists t, snd (m h) = (h ++ t)%list /\ S (fst (m h)) (clicks t).

End Trace2.

(** ** More worlds and configurations *)

Module MoreScenario.

Import PyStr Scenario.

Definition with_returns (r : history -> action -> bool) (w : world) : world :=
  {| script_dir := script_dir w;
     fs_exists := fs_exists w;
     fs_json := fs_json w;
     fs_lines := fs_lines w;
     chrome := chrome w;
     rand_subreddit := rand_subreddit w;
     rand_post := rand_post w;
     returns := r;
     count := count w;
     text := text w |}.

(** As [calm], but no locator finds anything. *)
Definition no_buttons : world :=
  {| script_dir := script_dir calm;
     fs_exists := fs_exists calm;
     fs_json := fs_json calm;
     fs_lines := fs_lines calm;
     chrome := chrome calm;
     rand_subreddit := 0;
     rand_post := 0;
     returns := returns calm;
     count := fun _ _ => Some 0%nat;
     text := text calm |}.

(** As [calm], but the fire image never becomes visible. *)
Definition blind : world :=
  with_returns (fun _ a => match a with AWaitVisible _ => false | _ => true end)
    calm.

(** As [calm], but closing the context raises. *)
Definition stuck_context : world :=
  with_returns (fun _ a => match a with AContextClose => false | _ => true end)
    calm.

(** As [calm], but no cookie file can be parsed. *)
Definition broken_file : world :=
  {| script_dir := script_dir calm;
     fs_exists := fs_exists calm;
     fs_json := fun _ => Raise ValueError;
     fs_lines := fun _ => Raise OSError;
     chrome := chrome calm;
     rand_subreddit := 0;
     rand_post := 0;
     returns := returns calm;
     count := count calm;
     text := text calm |}.

Definition with_subreddits (l : option (list string + string))
    (single : option string) (cfg : config) : config :=
  {| cfg_subreddits := l;
     cfg_subreddit := single;
     cfg_wait_seconds_min := cfg_wait_seconds_min cfg;
     cfg_wait_seconds_max := cfg_wait_seconds_max cfg;
     cfg_reddit_username := cfg_reddit_username cfg;
     cfg_streak_check_url := cfg_streak_check_url cfg;
     cfg_upvoted_page_url := cfg_upvoted_page_url cfg;
     cfg_use_chrome_cookies := cfg_use_chrome_cookies cfg;
     cfg_cookies_file := cfg_cookies_file cfg;
     cfg_test_mode := cfg_test_mode cfg |}.

(** Names with white space around them, and an empty entry. *)
Definition padded_config : config :=
  with_subreddits (Some (inl [" python "; ""; "rust "])) None base_config.

(** A list of empty names beside a single name. *)
Definition blank_list_config : config :=
  with_subreddits (Some (inl [""])) (Some "python") base_config.

Definition empty_config : config := with_subreddits None None base_config.

(** Neither a user name nor a status URL. *)
Definition anonymous_config : config :=
  {| cfg_subreddits := cfg_subreddits base_config;
     cfg_subreddit := cfg_subreddit base_config;
     cfg_wait_seconds_min := cfg_wait_seconds_min base_config;
     cfg_wait_seconds_max := cfg_wait_seconds_max base_config;
     cfg_reddit_username := None;
     cfg_streak_check_url := None;
     cfg_upvoted_page_url := None;
     cfg_use_chrome_cookies := cfg_use_chrome_cookies base_config;
     cfg_cookies_file := cfg_cookies_file base_config;
     cfg_test_mode := cfg_test_mode base_config |}.

Definition test_config : config :=
  {| cfg_subreddits := cfg_subreddits base_config;
     cfg_subreddit := cfg_subreddit base_config;
     cfg_wait_seconds_min := cfg_wait_seconds_min base_config;
     cfg_wait_seconds_max := cfg_wait_seconds_max base_config;
     cfg_reddit_username := cfg_reddit_username base_config;
     cfg_streak_check_url := cfg_streak_check_url base_config;
     cfg_upvoted_page_url := cfg_upvoted_page_url base_config;
     cfg_use_chrome_cookies := cfg_use_chrome_cookies base_config;
     cfg_cookies_file := cfg_cookies_file base_config;
     cfg_test_mode := true |}.


(** A JSON entry flagged as a session cookie that also has a date. *)
Definition session_entry : pyval :=
  PDict [("domain", PStr "www.reddit.com"); ("name", PStr "token_v2");
         ("value", PStr "abc"); ("session", PBool true);
         ("expirationDate", PInt 1900000000)].

Definition at_time (run_time : string) : launch :=
  {| cfg_run_now := false; cfg_run_time := Some run_time |}.

Definition o_clock (hour minute : Z) : tm :=
  {| tm_hour := hour; tm_min := minute |}.

(** The history of [main] when the first reading of the clock is due. *)
Definition h_due : history :=
  (Scheduler.banner
   ++ [ALog INFO "Scheduled time reached - starting upvote flow"])%list.

End MoreScenario.
(** ** Facts about the string methods *)

Module PyStrFacts.

Import PyStr.

Lemma prefix_refl_app (p s : string) : String.prefix p (p ++ s) = true.
Proof.
  induction p as [|c p IH]; simpl; [now destruct s|].
  destruct (ascii_dec c c); [exact IH | congruence].
Qed.

Lemma startswith_dot (d : string) : startswith ("." ++ d) "." = true.
Proof. exact (prefix_refl_app "." d). Qed.









Lemma rstrip_head (c : ascii) (r : string) :
  is_space c = false -> exists r', rstrip (String c r) = String c r'.
Proof.
  intros S. simpl. destruct (rstrip r); rewrite ?S; eauto.
Qed.

(** Stripping keeps a leading character that is not white space. *)
Lemma strip_head (c : ascii) (r : string) :
  is_space c = false -> exists r', strip (String c r) = String c r'.
Proof.
  intros S. unfold strip. simpl. rewrite S. now apply rstrip_head.
Qed.



End PyStrFacts.

(** ** CookieNormalizer: the loops *)

Module CookieFacts.

Import PyStr PyVal CookieNormalizer PyStrFacts.

Lemma leading_dot_starts (d : string) :
  startswith (leading_dot d) "." = true.
Proof.
  unfold leading_dot. destruct (startswith d ".") eqn:E; [exact E|].
  apply startswith_dot.
Qed.

Lemma chrome_fold (cj : list jar_cookie) (acc : list cookie) :
  fold_left (fun out c => (out ++ [chrome_cookie c])%list) cj acc
  = (acc ++ map chrome_cookie cj)%list.
Proof.
  revert acc; induction cj as [|c cj IH]; intros acc; simpl.
  - now rewrite app_nil_r.
  - rewrite IH, <- app_assoc. reflexivity.
Qed.

Lemma chrome_domain (c : jar_cookie) :
  domain (chrome_cookie c) = leading_dot (jc_domain c).
Proof. reflexivity. Qed.

Section Json.

Variable float_of_str : string -> option spec_float.

Ltac split_matches H :=
  repeat match type of H with
         | context [match ?x with _ => _ end] =>
             let E := fresh "E" in destruct x eqn:E; try discriminate H
         end; try discriminate H.

(** What an emitted JSON cookie owes to its entry: the domain and the
    sameSite value. *)
Lemma json_cookie_fields (filter : string) (e : pyval) (k : cookie) :
  json_cookie float_of_str filter e = Ok (Some k) ->
  exists d ss,
    get e "domain" (PStr "") = Ok (PStr d) /\
    contains filter d = true /\
    domain k = leading_dot d /\
    get e "sameSite" PNone = Ok ss /\
    same_site_of ss = Ok (sameSite k).
Proof.
  unfold json_cookie. intros H.
  destruct (get e "domain" (PStr "")) as [dom|] eqn:Ed; [|discriminate].
  destruct (str_in filter dom) as [[]|] eqn:Ei; try discriminate.
  destruct dom as [| | | |d| |]; try discriminate.
  destruct (json_expires float_of_str e) as [ex|]; [|discriminate].
  destruct (get e "sameSite" PNone) as [ss|] eqn:Es; [|discriminate].
  destruct (same_site_of ss) as [site|] eqn:Em.
  2:{ split_matches H. }
  split_matches H; injection H as <-; exists d, ss;
    simpl in Ei; injection Ei as Ei;
    (repeat split; try assumption; try reflexivity);
    unfold leading_dot; simpl;
    destruct (startswith d "."); simpl in *; congruence.
Qed.

Lemma json_loop_spec (filter : string) (data : list pyval) :
  forall out res,
    json_loop float_of_str filter data out = Ok res ->
    exists new,
      res = (out ++ new)%list /\
      Forall (fun k => exists e, In e data /\
                json_cookie float_of_str filter e = Ok (Some k)) new.
Proof.
  induction data as [|e data IH]; simpl; intros out res H.
  - injection H as <-. exists []. now rewrite app_nil_r.
  - destruct (json_cookie float_of_str filter e) as [[k|]|] eqn:E;
      [| |discriminate].
    + apply IH in H as (new & -> & F). exists (k :: new). split.
      * now rewrite <- app_assoc.
      * constructor; [eauto|].
        eapply Forall_impl; [|exact F]. intros ? (e' & ? & ?); eauto.
    + apply IH in H as (new & -> & F). exists new. split; [reflexivity|].
      eapply Forall_impl; [|exact F]. intros ? (e' & ? & ?); eauto.
Qed.

Lemma json_emitted (data : pyval) (filter : string) (out : list cookie)
    (k : cookie) :
  load_cookies_from_json float_of_str data filter = Ok out ->
  In k out ->
  exists e, In e (entries data) /\
            json_cookie float_of_str filter e = Ok (Some k).
Proof.
  unfold load_cookies_from_json. intros H I.
  apply json_loop_spec in H as (new & -> & F). simpl in I.
  rewrite Forall_forall in F. exact (F k I).
Qed.

End Json.

Lemma netscape_loop_spec (filter : string) (lines : list string) :
  forall acc,
    netscape_loop filter lines acc
    = (acc ++ flat_map (line_cookies filter) lines)%list.
Proof.
  induction lines as [|l lines IH]; intros acc; simpl.
  - now rewrite app_nil_r.
  - unfold line_cookies at 1.
    destruct (netscape_cookie filter l); rewrite IH; simpl;
      [now rewrite <- app_assoc | reflexivity].
Qed.

Lemma netscape_emitted (lines : list string) (filter : string) (k : cookie) :
  In k (load_cookies_from_netscape_file lines filter) ->
  exists line, In line lines /\ netscape_cookie filter line = Some k.
Proof.
  unfold load_cookies_from_netscape_file. rewrite netscape_loop_spec. simpl.
  intros I. apply in_flat_map in I as (line & Il & Ik).
  exists line. split; [exact Il|]. unfold line_cookies in Ik.
  destruct (netscape_cookie filter line); simpl in Ik; [|contradiction].
  destruct Ik as [->|[]]. reflexivity.
Qed.

(** The record that a Netscape line yields, field by field. *)
Lemma netscape_cookie_fields (filter line : string) (k : cookie) :
  netscape_cookie filter line = Some k ->
  let fields := split_tab (strip line) in
  strip line <> "" /\
  startswith (strip line) "#" = false /\
  (7 <= List.length fields)%nat /\
  contains filter (nth 0 fields "") = true /\
  name k = PStr (nth 5 fields "") /\
  value k = PStr (join_tab (skipn 6 fields)) /\
  domain k = leading_dot (nth 0 fields "") /\
  path k = PStr (nth 2 fields "") /\
  httpOnly k = PBool false /\
  sameSite k = "Lax".
Proof.
  unfold netscape_cookie. intros H.
  destruct (String.eqb (strip line) "") eqn:E0; [discriminate|].
  destruct (startswith (strip line) "#") eqn:E1; [discriminate|].
  simpl in H.
  destruct (List.length (split_tab (strip line)) <? 7)%nat eqn:E2;
    [discriminate|].
  destruct (contains filter (nth 0 (split_tab (strip line)) "")) eqn:E3;
    [|discriminate].
  simpl in H. injection H as <-. simpl.
  apply String.eqb_neq in E0. apply Nat.ltb_ge in E2.
  repeat split; assumption.
Qed.

End CookieFacts.

(** ** CookieNormalizer: the claims *)

Section CookieClaims.

Import PyStr PyVal CookieNormalizer PyStrFacts CookieFacts.

(** C3, as amended.  The vendor sameSite value of a JSON entry is looked up
    by exact match: the three lower-case keys map to None, Strict and Lax;
    every other string (a case variant included) and every absent, null,
    boolean or numeric value gives Lax; and the sameSite of an emitted cookie
    is this lookup on the entry's value. *)
Theorem C3_same_site_exact_match :
  same_site_of (PStr "no_restriction") = Ok "None" /\
  same_site_of (PStr "strict") = Ok "Strict" /\
  same_site_of (PStr "lax") = Ok "Lax" /\
  (forall s, s <> "no_restriction" -> s <> "strict" -> s <> "lax" ->
             same_site_of (PStr s) = Ok "Lax") /\
  (forall v, match v with
             | PNone | PBool _ | PInt _ | PFloat _ => same_site_of v = Ok "Lax"
             | _ => True
             end) /\
  (forall float_of_str filter e k,
      json_cookie float_of_str filter e = Ok (Some k) ->
      exists ss, get e "sameSite" PNone = Ok ss /\
                 same_site_of ss = Ok (sameSite k)).
Proof.
  repeat split; try reflexivity.
  - intros s N1 N2 N3. unfold same_site_of, same_site_map, lookup.
    apply String.eqb_neq in N1, N2, N3. now rewrite N1, N2, N3.
  - intros []; exact I || reflexivity.
  - intros fo filter e k H.
    destruct (json_cookie_fields fo filter e k H) as (d & ss & _ & _ & _ & G & S).
    now exists ss.
Qed.

(** C6.  On each of the three paths every emitted cookie has a domain that
    starts with a dot, and that domain is the source domain kept as it is
    when it starts with a dot, with a dot in front otherwise. *)
Theorem C6_domain_leading_dot :
  (forall cj k,
      In k (load_cookies_from_chrome (CookieJar cj)) ->
      startswith (domain k) "." = true /\
      exists c, In c cj /\ domain k = leading_dot (jc_domain c)) /\
  (forall float_of_str data filter out k,
      load_cookies_from_json float_of_str data filter = Ok out ->
      In k out ->
      startswith (domain k) "." = true /\
      exists e d, In e (entries data) /\
                  get e "domain" (PStr "") = Ok (PStr d) /\
                  domain k = leading_dot d) /\
  (forall lines filter k,
      In k (load_cookies_from_netscape_file lines filter) ->
      startswith (domain k) "." = true /\
      exists line, In line lines /\
                   domain k = leading_dot (nth 0 (split_tab (strip line)) "")).
Proof.
  split; [|split].
  - intros cj k I. simpl in I. rewrite chrome_fold in I. simpl in I.
    apply in_map_iff in I as (c & <- & Ic). rewrite chrome_domain.
    split; [apply leading_dot_starts | eauto].
  - intros fo data filter out k H I.
    destruct (json_emitted fo data filter out k H I) as (e & Ie & E).
    destruct (json_cookie_fields fo filter e k E) as (d & ss & G & _ & D & _).
    rewrite D. split; [apply leading_dot_starts | eauto].
  - intros lines filter k I.
    destruct (netscape_emitted lines filter k I) as (line & Il & E).
    destruct (netscape_cookie_fields filter line k E)
      as (_ & _ & _ & _ & _ & _ & D & _).
    rewrite D. split; [apply leading_dot_starts | eauto].
Qed.


(** C9.  A Netscape line whose stripped text starts with [#] is a comment:
    it yields no record, a [#HttpOnly_] cookie line included; and every
    record the Netscape parser emits has httpOnly false. *)
Theorem C9_netscape_comments_and_httponly (filter : string) :
  (forall line,
      startswith (strip line) "#" = true ->
      netscape_cookie filter line = None /\
      forall rest,
        load_cookies_from_netscape_file (line :: rest) filter
        = load_cookies_from_netscape_file rest filter) /\
  (forall tail, netscape_cookie filter ("#HttpOnly_" ++ tail) = None) /\
  (forall lines k,
      In k (load_cookies_from_netscape_file lines filter) ->
      httpOnly k = PBool false).
Proof.
  assert (Skip : forall line, startswith (strip line) "#" = true ->
                              netscape_cookie filter line = None).
  { intros line H. unfold netscape_cookie. rewrite H.
    now rewrite orb_true_r. }
  split; [|split].
  - intros line H. split; [now apply Skip|]. intros rest.
    unfold load_cookies_from_netscape_file. simpl. now rewrite (Skip line H).
  - intros tail. apply Skip.
    destruct (strip_head "#" ("HttpOnly_" ++ tail) eq_refl) as (r & E).
    change ("#HttpOnly_" ++ tail) with (String "#" ("HttpOnly_" ++ tail)).
    rewrite E. unfold startswith. simpl. now destruct r.
  - intros lines k I.
    destruct (netscape_emitted lines filter k I) as (line & _ & E).
    now destruct (netscape_cookie_fields filter line k E)
      as (_ & _ & _ & _ & _ & _ & _ & _ & H & _).
Qed.

End CookieClaims.

(** ** Facts about the flow monad *)

Module RunFacts.

Import Run StreakDetector Trace.
Local Open Scope flow_scope.

Lemma bind_val {A B} (m : M A) (k : A -> M B) h a h' :
  m h = (Val a, h') -> bind m k h = k a h'.
Proof. unfold bind. now intros ->. Qed.

Lemma bind_ret {A B} (m : M A) (k : A -> M B) h b h' :
  m h = (Ret b, h') -> bind m k h = (Ret b, h').
Proof. unfold bind. now intros ->. Qed.

Lemma bind_exc {A B} (m : M A) (k : A -> M B) h h' :
  m h = (Exc, h') -> bind m k h = (Exc, h').
Proof. unfold bind. now intros ->. Qed.

Lemma bind_val_inv {A B} (m : M A) (k : A -> M B) h b h' :
  bind m k h = (Val b, h') ->
  exists a h1, m h = (Val a, h1) /\ k a h1 = (Val b, h').
Proof.
  unfold bind. destruct (m h) as [[a| |] h1]; try discriminate. eauto.
Qed.

Lemma call_run (w : world) (a : action) h :
  returns w h a = true -> call w a h = (Val tt, (h ++ [a])%list).
Proof. unfold call. now intros ->. Qed.

Section Traces.

Context {P : action -> Prop}.

Lemma traces_pure {A} (a : A) : traces P (pure a).
Proof. intros h. exists []. simpl. now rewrite app_nil_r. Qed.

Lemma traces_ret {A} (b : bool) : traces P (@ret A b).
Proof. intros h. exists []. simpl. now rewrite app_nil_r. Qed.

Lemma traces_raise {A} : traces P (@raise A).
Proof. intros h. exists []. simpl. now rewrite app_nil_r. Qed.

Lemma traces_lift {A} (r : result A) : traces P (lift r).
Proof. destruct r; [apply traces_pure | apply traces_raise]. Qed.

Lemma traces_emit (a : action) : P a -> traces P (emit a).
Proof. intros Pa h. exists [a]. simpl. auto. Qed.

Lemma traces_call (w : world) (a : action) : P a -> traces P (call w a).
Proof. intros Pa h. exists [a]. simpl. auto. Qed.

Lemma traces_query (w : world) (a : action) : P a -> traces P (query w a).
Proof. intros Pa h. exists [a]. simpl. auto. Qed.

Lemma traces_pages (w : world) : P APages -> traces P (pages w).
Proof. intros Pa h. exists [APages]. simpl. auto. Qed.

Lemma traces_locator_all (w : world) (sel : selector) :
  P (AAll sel) -> traces P (locator_all w sel).
Proof. intros Pa h. exists [AAll sel]. simpl. auto. Qed.

Lemma traces_bind {A B} (m : M A) (k : A -> M B) :
  traces P m -> (forall a, traces P (k a)) -> traces P (bind m k).
Proof.
  intros Tm Tk h. unfold bind.
  destruct (Tm h) as (t1 & E1 & F1).
  destruct (m h) as [[a| |] h1]; simpl in E1; subst h1; simpl; eauto.
  destruct (Tk a (h ++ t1)%list) as (t2 & E2 & F2).
  exists (t1 ++ t2)%list. rewrite E2, app_assoc. split; [reflexivity|].
  apply Forall_app; auto.
Qed.

Lemma traces_attempt {A} (m : M A) (fallback : A) :
  traces P m -> traces P (attempt m fallback).
Proof.
  intros Tm h. unfold attempt. destruct (Tm h) as (t & E & F).
  destruct (m h) as [[a| |] h1]; simpl in *; eauto.
Qed.

Lemma traces_try {A} (body handler : M A) (final : M unit) :
  traces P body -> traces P handler -> traces P final ->
  traces P (try_except_finally body handler final).
Proof.
  intros Tb Th Tf h. unfold try_except_finally.
  destruct (Tb h) as (t1 & E1 & F1).
  destruct (body h) as [o h1]; simpl in E1; subst h1.
  assert (Fin : forall (o' : outcome A) t2, Forall P t2 ->
            exists t,
              snd (let (f, h3) := final (h ++ t2)%list in
                   match f with
                   | Val _ => (o', h3)
                   | Ret b => (Ret b, h3)
                   | Exc => (Exc, h3)
                   end) = (h ++ t)%list /\ Forall P t).
  { intros o' t2 F2. destruct (Tf (h ++ t2)%list) as (t3 & E3 & F3).
    destruct (final (h ++ t2)%list) as [f h3]; simpl in E3; subst h3.
    exists (t2 ++ t3)%list.
    split; [destruct f; symmetry; apply app_assoc | apply Forall_app; auto]. }
  destruct o as [a|b|].
  - exact (Fin (Val a) t1 F1).
  - exact (Fin (Ret b) t1 F1).
  - destruct (Th (h ++ t1)%list) as (t & E & F).
    destruct (handler (h ++ t1)%list) as [o' h2]; simpl in E; subst h2.
    rewrite <- app_assoc. apply Fin, Forall_app; auto.
Qed.

(** From a run to its history. *)
Lemma traces_run {A} (m : M A) h o h' :
  traces P m -> m h = (o, h') -> exists t, h' = (h ++ t)%list /\ Forall P t.
Proof. intros T E. destruct (T h) as (t & Et & F). rewrite E in Et. eauto. Qed.

End Traces.

Lemma traces_weaken {A} (P Q : action -> Prop) (m : M A) :
  (forall a, P a -> Q a) -> traces P m -> traces Q m.
Proof.
  intros PQ T h. destruct (T h) as (t & E & F). exists t. split; [exact E|].
  eapply Forall_impl; eauto.
Qed.

End RunFacts.

(** ** Facts about the two flows *)

Module FlowFacts.

Import PyStr Config CookieNormalizer Run StreakDetector Session Trace RunFacts.
Import VoteFlow.
Local Open Scope flow_scope.

Lemma idle_away (u : string) (a : action) : idle a -> away_from_votes u a.
Proof.
  intros [T G]. split; [exact T|]. intros v ->. discriminate G.
Qed.

Ltac side :=
  match goal with
  | |- idle _ => split; reflexivity
  | |- away_from_votes _ _ =>
      split; [reflexivity
             | let v := fresh in let E := fresh in
               intros v E; (discriminate E || (injection E; auto))]
  end.

Ltac step_trace :=
  match goal with
  | |- traces _ (bind _ _) => apply traces_bind; [|intros]
  | |- traces _ (pure _) => apply traces_pure
  | |- traces _ (ret _) => apply traces_ret
  | |- traces _ raise => apply traces_raise
  | |- traces _ (lift _) => apply traces_lift
  | |- traces _ (log _ _) => apply traces_emit; side
  | |- traces _ (sleep _) => apply traces_emit; side
  | |- traces _ (emit _) => apply traces_emit; side
  | |- traces _ (call _ _) => apply traces_call; side
  | |- traces _ (query _ _) => apply traces_query; side
  | |- traces _ (pages _) => apply traces_pages; side
  | |- traces _ (attempt _ _) => apply traces_attempt
  | |- traces _ (if ?c then _ else _) => destruct c
  | |- traces _ (match ?x with _ => _ end) => destruct x
  end.

Ltac trace := repeat step_trace.

Section World.

Variable float_of_str : string -> option spec_float.
Variable w : world.

Lemma read_streak_days_idle : traces idle (read_streak_days w).
Proof. unfold read_streak_days. trace. Qed.

(** The status check navigates to the status page and nowhere else, and
    touches no vote button. *)
Lemma check_streak_traces (u : string) :
  traces (away_from_votes u) (check_streak_on_page w u).
Proof.
  unfold check_streak_on_page. trace.
  eapply traces_weaken; [apply idle_away | apply read_streak_days_idle].
Qed.

Lemma read_cookies_idle (p : fspath) :
  traces idle (read_cookies float_of_str w p).
Proof. unfold read_cookies. trace. Qed.

Lemma open_session_idle (cfg : config) :
  traces idle (open_session float_of_str w cfg).
Proof.
  unfold open_session, auth_cookies_file, auth_chrome, auth_persistent.
  trace; apply read_cookies_idle.
Qed.

(** The set-up neither navigates nor touches a vote button. *)
Lemma setup_idle (cfg : config) : traces idle (setup float_of_str w cfg).
Proof. unfold setup. trace. apply open_session_idle. Qed.

Lemma teardown_idle (l : locals) : traces idle (teardown w l).
Proof. unfold teardown. trace. Qed.

Hypothesis context_closes : forall h, returns w h AContextClose = true.
Hypothesis browser_closes : forall h, returns w h ABrowserClose = true.

Lemma teardown_run (l : locals) (h : history) :
  teardown w l h = (Val tt, (h ++ closing l)%list).
Proof.
  unfold teardown, closing, log, emit, bind, call.
  rewrite context_closes. destruct (browser l).
  - rewrite browser_closes. now rewrite <- !app_assoc.
  - unfold pure. now rewrite <- !app_assoc, app_nil_r.
Qed.

(** Once the set-up is through, the run returns the verdict of the body and
    its history ends with the closing calls. *)
Lemma run_verdict (cfg : config) (l : locals) (h0 h1 : history)
    (o : outcome unit) :
  setup float_of_str w cfg [] = (Val l, h0) ->
  steps w cfg l h0 = (o, h1) ->
  run_upvote_flow float_of_str w cfg []
  = (Ret (verdict_of o), (handled o h1 ++ closing l)%list).
Proof.
  intros S B. unfold run_upvote_flow.
  rewrite (bind_val _ _ _ _ _ S).
  unfold bind at 1, try_except_finally. rewrite B.
  destruct o as [[]|b|]; simpl; rewrite teardown_run; reflexivity.
Qed.

End World.

End FlowFacts.

Module SessionFacts.

Import PyStr Config CookieNormalizer Run StreakDetector Session Trace RunFacts.
Import VoteFlow.
Local Open Scope flow_scope.

Ltac crack H :=
  repeat (match type of H with
          | context [if ?c then _ else _] => destruct c eqn:?
          | context [match ?x with _ => _ end] => destruct x eqn:?
          end; try discriminate H).

Ltac find_in := repeat rewrite in_app_iff; simpl; intuition.

Section World.

Variable float_of_str : string -> option spec_float.
Variable w : world.

Lemma read_cookies_same (p : fspath) (h : history) :
  snd (read_cookies float_of_str w p h) = h.
Proof.
  unfold read_cookies, lift, pure, raise.
  destruct (String.eqb _ _);
    [destruct (fs_json w p) as [data|]; [destruct (load_cookies_from_json _ _ _)|]
    | destruct (fs_lines w p)]; reflexivity.
Qed.

(** The flag [browser] tells which launch opened the session. *)
Lemma open_session_browser (cfg : config) (h h' : history) (b : bool) :
  open_session float_of_str w cfg h = (Val b, h') ->
  In (if b then ALaunch else ALaunchPersistent) h'.
Proof.
  unfold open_session, auth_cookies_file, auth_chrome, auth_persistent,
    bind, log, sleep, emit, call, pages, pure, ret.
  intros H. crack H; injection H as <- <-;
    repeat match goal with
           | R : read_cookies _ _ ?p ?h = (_, ?h') |- _ =>
               let E := fresh in
               pose proof (read_cookies_same p h) as E;
               rewrite R in E; simpl in E; subst h'; clear R
           end;
    find_in.
Qed.

Lemma setup_browser (cfg : config) (l : locals) (h0 : history) :
  setup float_of_str w cfg [] = (Val l, h0) ->
  In (if browser l then ALaunch else ALaunchPersistent) h0.
Proof.
  unfold setup. destruct (is_nil (get_subreddits cfg)).
  { unfold bind, log, emit, ret. discriminate. }
  intros H.
  apply bind_val_inv in H as ([] & h1 & _ & H).
  apply bind_val_inv in H as (b & h2 & O & H).
  apply bind_val_inv in H as ([] & h3 & C & H).
  injection H as <- <-. simpl.
  apply open_session_browser in O.
  unfold call in C. injection C as _ <-. find_in.
Qed.

End World.

End SessionFacts.

(** ** StreakDetector: the claim *)

Section StreakClaims.

Import PyStr PyStrFacts StreakDetector.


End StreakClaims.

(** ** The flows: the claims *)

Section FlowClaims.

Import PyStr PyPath Config CookieNormalizer Run StreakDetector Session Trace.
Import RunFacts FlowFacts SessionFacts.
Local Open Scope flow_scope.

Variable float_of_str : string -> option spec_float.
Variable w : world.

(** C10.  A relative [cookies_file] is resolved against the directory of the
    script, by the same rule in the vote flow and in the standalone check,
    and the result is anchored at the root; the cookie-file branch is taken
    exactly when the resolved path exists, and otherwise the choice goes on
    to the Chrome profile or the persistent profile. *)
Theorem C10_cookies_path_resolution (cfg : config) (cookies_file : string) :
  cfg_cookies_file cfg = Some cookies_file ->
  nonempty cookies_file = true ->
  is_absolute (Path cookies_file) = false ->
  let resolved := joinpath (script_parent w) (Path cookies_file) in
  VoteFlow.cookies_path w cfg = Some resolved /\
  StandaloneCheck.cookies_path w cfg = Some resolved /\
  is_absolute resolved = true /\
  parts resolved = (script_dir w ++ parts (Path cookies_file))%list /\
  (fs_exists w resolved = true ->
     VoteFlow.open_session float_of_str w cfg
     = VoteFlow.auth_cookies_file float_of_str w resolved /\
     StandaloneCheck.open_session float_of_str w cfg
     = StandaloneCheck.auth_cookies_file float_of_str w resolved) /\
  (fs_exists w resolved = false ->
     VoteFlow.open_session float_of_str w cfg
     = (if VoteFlow.use_chrome_cookies cfg then VoteFlow.auth_chrome w
        else VoteFlow.auth_persistent w) /\
     StandaloneCheck.open_session float_of_str w cfg
     = (if StandaloneCheck.use_chrome_cookies cfg
        then StandaloneCheck.auth_chrome w
        else StandaloneCheck.auth_persistent w)).
Proof.
  intros F N R resolved.
  assert (V : VoteFlow.cookies_path w cfg = Some resolved).
  { unfold VoteFlow.cookies_path. now rewrite F, N, R. }
  assert (S : StandaloneCheck.cookies_path w cfg = Some resolved).
  { unfold StandaloneCheck.cookies_path. now rewrite F, N, R. }
  assert (J : resolved = {| anchored := true;
                            parts := (script_dir w ++ parts (Path cookies_file))%list |}).
  { unfold resolved, joinpath. unfold is_absolute in R. now rewrite R. }
  repeat split; try assumption; try (rewrite J; reflexivity).
  - unfold VoteFlow.open_session. now rewrite V, H.
  - unfold StandaloneCheck.open_session. now rewrite S, H.
  - unfold VoteFlow.open_session. now rewrite V, H.
  - unfold StandaloneCheck.open_session. now rewrite S, H.
Qed.

(** C8, as amended.  Once the set-up of the vote flow is through, every way
    out of the guarded block - normal completion, the early skip, a failed
    step, a caught exception - ends with the context closed and then, when a
    browser was launched for the session, the browser closed, provided the
    two close calls return. *)
Theorem C8_teardown_after_setup (cfg : config) (l : locals) (h0 : history) :
  VoteFlow.setup float_of_str w cfg [] = (Val l, h0) ->
  (forall h, returns w h AContextClose = true) ->
  (forall h, returns w h ABrowserClose = true) ->
  In (if browser l then ALaunch else ALaunchPersistent) h0 /\
  exists b tr,
    VoteFlow.run_upvote_flow float_of_str w cfg []
    = (Ret b,
       (tr ++ [AContextClose]
           ++ (if browser l then [ABrowserClose] else []))%list).
Proof.
  intros S Cc Cb. split; [exact (setup_browser float_of_str w cfg l h0 S)|].
  destruct (VoteFlow.steps w cfg l h0) as [o h1] eqn:B.
  rewrite (run_verdict float_of_str w Cc Cb cfg l h0 h1 o S B).
  exists (verdict_of o),
         (handled o h1 ++ [ALog DEBUG "Closing context and browser"])%list.
  unfold closing. now rewrite <- !app_assoc.
Qed.

(** Reading the day count always falls through. *)
Lemma read_streak_days_val (h : history) :
  exists d h', read_streak_days w h = (Val d, h').
Proof.
  unfold read_streak_days, attempt, bind, query, pure, raise.
  destruct (text w h (AInnerText CurrentStreak)) as [t|]; [|eauto].
  destruct (negb _ && _); [|eauto].
  destruct (py_int _); eauto.
Qed.

(** The status check falls through or raises; it has no [return] of its
    own. *)
Lemma check_streak_no_return (u : string) (h h' : history) (b : bool) :
  check_streak_on_page w u h <> (Ret b, h').
Proof.
  unfold check_streak_on_page, bind, call, query, sleep, emit, pure.
  intros H; crack H;
    repeat match goal with
           | Q : match ?x with _ => _ end = _ |- _ =>
               destruct x; try discriminate Q
           end.
  all: match goal with
  | R : read_streak_days _ ?h1 = _ |- _ =>
      let E := fresh "E" in
      destruct (read_streak_days_val h1) as (? & ? & E);
      rewrite E in R; discriminate R
  end.
Qed.

(** The gating check on a status page that reports the streak reached, with
    test mode unset. *)
Lemma check_before_skips (cfg : config) (l : locals) (h0 h1 : history)
    (d : option Z) :
  nonempty (streak_url l) = true ->
  cfg_test_mode cfg = false ->
  check_streak_on_page w (streak_url l)
    (h0 ++ [ALog INFO "Checking streak status before upvote..."])%list
  = (Val (true, d), h1) ->
  VoteFlow.check_before w cfg l h0
  = (Ret true,
     (h1 ++ days_line d
         ++ [ALog INFO "Streak already reached today, skipping upvote."])%list).
Proof.
  intros N T C. unfold VoteFlow.check_before. rewrite N.
  unfold bind at 1, log at 1, emit at 1.
  rewrite (bind_val _ _ _ _ _ C). simpl fst. simpl snd. rewrite T.
  destruct d; unfold bind, log, emit, ret, pure, days_line; simpl;
    rewrite <- ?app_assoc; reflexivity.
Qed.

(** C5.  When the gating check reports the streak reached and test mode is
    unset, the run touches no vote button and navigates nowhere but to the
    status page, and it returns true (the two close calls returning). *)
Theorem C5_skip_when_reached (cfg : config) (l : locals)
    (h0 h1 : history) (d : option Z) :
  VoteFlow.setup float_of_str w cfg [] = (Val l, h0) ->
  nonempty (streak_url l) = true ->
  cfg_test_mode cfg = false ->
  check_streak_on_page w (streak_url l)
    (h0 ++ [ALog INFO "Checking streak status before upvote..."])%list
  = (Val (true, d), h1) ->
  exists o tr,
    VoteFlow.run_upvote_flow float_of_str w cfg [] = (o, tr) /\
    Forall (away_from_votes (streak_url l)) tr /\
    existsb is_click tr = false /\
    o <> Ret false /\
    ((forall h, returns w h AContextClose = true) ->
     (forall h, returns w h ABrowserClose = true) ->
     o = Ret true).
Proof.
  intros S N T C.
  pose proof (check_before_skips cfg l h0 h1 d N T C) as B.
  assert (St : VoteFlow.steps w cfg l h0
               = (Ret true,
                  (h1 ++ days_line d
                      ++ [ALog INFO "Streak already reached today, skipping upvote."])%list)).
  { unfold VoteFlow.steps. now rewrite (bind_ret _ _ _ _ _ B). }
  set (h2 := (h1 ++ days_line d
                 ++ [ALog INFO "Streak already reached today, skipping upvote."])%list) in *.
  assert (F2 : Forall (away_from_votes (streak_url l)) h2).
  { destruct (traces_run _ _ _ _ (setup_idle float_of_str w cfg) S)
      as (t0 & E0 & F0). simpl in E0. subst h0.
    destruct (traces_run _ _ _ _ (check_streak_traces w (streak_url l)) C)
      as (tc & Ec & Fc). subst h1. unfold h2.
    apply Forall_app; split;
      [apply Forall_app; split; [apply Forall_app; split|]
      |apply Forall_app; split].
    - eapply Forall_impl; [apply idle_away | exact F0].
    - repeat constructor; intros v E; discriminate E.
    - exact Fc.
    - destruct d; repeat constructor; intros v E; discriminate E.
    - repeat constructor; intros v E; discriminate E. }
  destruct (VoteFlow.teardown w l h2) as [f h3] eqn:Td.
  destruct (traces_run _ _ _ _ (teardown_idle w l) Td) as (t3 & E3 & F3).
  assert (F : Forall (away_from_votes (streak_url l)) h3).
  { subst h3. apply Forall_app. split; [exact F2|].
    eapply Forall_impl; [apply idle_away | exact F3]. }
  assert (R : VoteFlow.run_upvote_flow float_of_str w cfg []
              = (match f with Val _ => Ret true | Ret b => Ret b | Exc => Exc end,
                 h3)).
  { unfold VoteFlow.run_upvote_flow. rewrite (bind_val _ _ _ _ _ S).
    unfold bind at 1, try_except_finally. rewrite St, Td.
    destruct f; reflexivity. }
  assert (Nf : forall b, f <> Ret b).
  { intros b ->. revert Td.
    unfold VoteFlow.teardown, bind, log, emit, call, pure.
    intros H. crack H. }
  exists (match f with Val _ => Ret true | Ret b => Ret b | Exc => Exc end), h3.
  split; [exact R|]. split; [exact F|]. split; [|split].
  - clear -F. induction F as [|a tr [Ta _] _ IH]; [reflexivity|].
    simpl. rewrite IH. now destruct a.
  - destruct f as [|b|]; try discriminate. now destruct (Nf b).
  - intros Cc Cb.
    rewrite (teardown_run w Cc Cb) in Td. now injection Td as <- _.
Qed.

(** C1, as amended.  In a run that reaches the check after the removal, the
    status that the check reports does not bear on the verdict: whenever the
    check returns, with any status and with or without a day count, the run
    returns true.  An exception that leaves the check, such as the status
    image not becoming visible within its bound, is caught by the handler of
    the flow and the run returns false.  (The two close calls return.) *)
Theorem C1_after_check_verdict (cfg : config) (l : locals)
    (h0 hb h1 : history) :
  VoteFlow.setup float_of_str w cfg [] = (Val l, h0) ->
  VoteFlow.check_before w cfg l h0 = (Val tt, hb) ->
  VoteFlow.vote w l hb = (Val tt, h1) ->
  nonempty (streak_url l) = true ->
  (forall h, returns w h AContextClose = true) ->
  (forall h, returns w h ABrowserClose = true) ->
  forall (o : outcome (bool * option Z)) (h2 : history),
    check_streak_on_page w (streak_url l)
      (h1 ++ [ALog INFO "Rechecking streak status after upvote..."])%list
    = (o, h2) ->
    fst (VoteFlow.run_upvote_flow float_of_str w cfg [])
    = match o with
      | Val _ => Ret true
      | _ => Ret false
      end /\
    (forall b, o <> Ret b).
Proof.
  intros S B V N Cc Cb o h2 C.
  assert (Nr : forall b, o <> Ret b).
  { intros b ->. exact (check_streak_no_return _ _ _ _ C). }
  split; [|exact Nr].
  assert (A : exists h3,
             VoteFlow.steps w cfg l h0
             = (match o with Val _ => Val tt | _ => Exc end, h3)).
  { unfold VoteFlow.steps.
    rewrite (bind_val _ _ _ _ _ B), (bind_val _ _ _ _ _ V).
    unfold VoteFlow.check_after. rewrite N.
    unfold bind at 1, log at 1, emit at 1.
    destruct o as [[reached days]|b|].
    - rewrite (bind_val _ _ _ _ _ C). simpl fst. simpl snd.
      destruct days, reached; unfold bind, log, emit, pure;
        eexists; reflexivity.
    - now destruct (Nr b).
    - rewrite (bind_exc _ _ _ _ C). eauto. }
  destruct A as (h3 & St).
  rewrite (run_verdict float_of_str w Cc Cb cfg l h0 h3 _ S St).
  destruct o as [r|b|]; reflexivity.
Qed.

(** C2, as amended.  When the Chrome-profile strategy is the one selected and
    Chrome holds no Reddit cookie, the run aborts at once: it never returns
    true, it creates no page, navigates nowhere and touches no vote button,
    and when the launch and the close return it logs the error, closes the
    browser and returns false.  When the cookie-file strategy is selected
    and the file holds no usable cookie, the bootstrap logs a warning and
    goes on to create the page. *)
Theorem C2_no_cookies (cfg : config) :
  (is_nil (get_subreddits cfg) = false ->
   (forall p, VoteFlow.cookies_path w cfg = Some p -> fs_exists w p = false) ->
   VoteFlow.use_chrome_cookies cfg = true ->
   load_cookies_from_chrome (chrome w) = [] ->
   (exists o tr,
      VoteFlow.run_upvote_flow float_of_str w cfg [] = (o, tr) /\
      o <> Ret true /\ Forall idle tr /\ ~ In ANewPage tr) /\
   ((forall h, returns w h ALaunch = true) ->
    (forall h, returns w h ANewContext = true) ->
    (forall h, returns w h ABrowserClose = true) ->
    VoteFlow.run_upvote_flow float_of_str w cfg []
    = (Ret false,
       [ALog INFO "Starting upvote flow";
        ALog INFO "Auth: grabbing cookies from Chrome profile, using our own window";
        ALaunch; ANewContext;
        ALog ERROR "No Reddit cookies from Chrome. Log in to Reddit in Chrome first, or use cookies_file.";
        ABrowserClose]))) /\
  (forall p h,
   (forall h', read_cookies float_of_str w p h' = (Val [], h')) ->
   (forall h', returns w h' ALaunch = true) ->
   (forall h', returns w h' ANewContext = true) ->
   (forall h', returns w h' ANewPage = true) ->
   (forall h', returns w h' ABringToFront = true) ->
   VoteFlow.auth_cookies_file float_of_str w p h
   = (Val true,
      (h ++ [ALog INFO "Auth: using cookies file %s (our own window)";
             ALaunch; ANewContext;
             ALog WARNING "No Reddit cookies found in %s";
             ANewPage;
             ALog DEBUG "Created new page (cookies context)";
             ABringToFront])%list)).
Proof.
  split.
  - intros Sub Nofile Chrome Empty.
    assert (O : VoteFlow.open_session float_of_str w cfg = VoteFlow.auth_chrome w).
    { unfold VoteFlow.open_session.
      destruct (VoteFlow.cookies_path w cfg) as [p|] eqn:E.
      - now rewrite (Nofile p eq_refl), Chrome.
      - now rewrite Chrome. }
    assert (R : VoteFlow.run_upvote_flow float_of_str w cfg []
                = match VoteFlow.auth_chrome w [ALog INFO "Starting upvote flow"] with
                  | (Val _, h) => (Exc, h)
                  | (Ret b, h) => (Ret b, h)
                  | (Exc, h) => (Exc, h)
                  end
                \/ False).
    { left. unfold VoteFlow.run_upvote_flow, VoteFlow.setup. rewrite Sub, O.
      unfold bind at 1 2. unfold log at 1, emit at 1. simpl app.
      unfold VoteFlow.auth_chrome. rewrite Empty. simpl is_nil.
      unfold bind, log, emit, call, ret.
      repeat match goal with
             | |- context [returns w ?h ?a] => destruct (returns w h a)
             end; reflexivity. }
    destruct R as [R|[]]. rewrite R. clear R.
    unfold VoteFlow.auth_chrome. rewrite Empty. simpl is_nil.
    unfold bind, log, emit, call, ret. simpl app. split.
    + destruct (returns w _ ALaunch); [destruct (returns w _ ANewContext);
        [destruct (returns w _ ABrowserClose)|]|];
        eexists; eexists; (split; [reflexivity|]);
        (split; [discriminate|]);
        (split; [repeat constructor | simpl; intuition discriminate]).
    + intros L C B. now rewrite L, C, B.
  - intros p h Rc L C Np Bf. unfold VoteFlow.auth_cookies_file.
    unfold bind, log, emit, call, pure. rewrite L, C, Rc. simpl.
    rewrite Np, Bf. now rewrite <- !app_assoc.
Qed.

End FlowClaims.

(** ** The claims at concrete inputs *)

Section Witnesses.

Import PyStr PyVal PyPath Config CookieNormalizer Run StreakDetector Session.
Import Trace Scenario.

Lemma C3_witness :
  same_site_of (PStr "Strict") = Ok "Lax" /\
  exists ss, get (json_entry "strict") "sameSite" PNone = Ok ss /\
             same_site_of ss = Ok "Strict".
Proof.
  destruct C3_same_site_exact_match as (_ & _ & _ & Other & _ & Emitted).
  split.
  - apply Other; discriminate.
  - exact (Emitted no_float "reddit.com" (json_entry "strict")
             {| name := PStr "token_v2"; value := PStr "abc";
                domain := ".www.reddit.com"; path := PStr "/";
                secure := PBool false; httpOnly := PBool false;
                sameSite := "Strict"; expires := None |} eq_refl).
Defined.

(** C3 as stated fails: two entries whose sameSite values differ only in
    letter case get different sameSite fields. *)
Lemma C3_counterexample :
  lower "Strict" = lower "strict" /\
  option_map (map sameSite)
    (match load_cookies_from_json no_float (json_entry "strict") "reddit.com"
     with Ok out => Some out | Raise _ => None end)
  = Some ["Strict"] /\
  option_map (map sameSite)
    (match load_cookies_from_json no_float (json_entry "Strict") "reddit.com"
     with Ok out => Some out | Raise _ => None end)
  = Some ["Lax"].
Proof. repeat split. Qed.


Lemma C6_witness :
  startswith (domain (chrome_cookie one_jar_cookie)) "." = true /\
  (forall k,
     In k [{| name := PStr "token_v2"; value := PStr "abc";
              domain := ".www.reddit.com"; path := PStr "/";
              secure := PBool false; httpOnly := PBool false;
              sameSite := "Lax"; expires := None |}] ->
     startswith (domain k) "." = true) /\
  (forall k,
     In k (load_cookies_from_netscape_file [reddit_line] "reddit.com") ->
     startswith (domain k) "." = true).
Proof.
  destruct C6_domain_leading_dot as (Chrome & Json & Netscape).
  split; [|split].
  - apply (Chrome [one_jar_cookie]). left. reflexivity.
  - intros k I.
    apply (Json no_float (json_entry "lax") "reddit.com" _ k eq_refl I).
  - intros k I. apply (Netscape [reddit_line] "reddit.com" k I).
Defined.


Lemma C9_witness :
  netscape_cookie "reddit.com" "# Netscape HTTP Cookie File" = None /\
  forall k,
    In k (load_cookies_from_netscape_file [reddit_line] "reddit.com") ->
    httpOnly k = PBool false.
Proof.
  destruct (C9_netscape_comments_and_httponly "reddit.com")
    as (Comment & _ & Http).
  split.
  - apply (Comment "# Netscape HTTP Cookie File"). reflexivity.
  - intros k I. exact (Http [reddit_line] k I).
Defined.

Lemma C10_witness :
  VoteFlow.cookies_path calm file_config
  = Some {| anchored := true; parts := ["opt"; "streakbot"; "cookies.json"] |}
  /\ StandaloneCheck.cookies_path calm file_config
     = Some {| anchored := true; parts := ["opt"; "streakbot"; "cookies.json"] |}.
Proof.
  destruct (C10_cookies_path_resolution no_float calm file_config
              "cookies.json" eq_refl eq_refl eq_refl) as (V & S & _).
  split; [exact V | exact S].
Defined.

Lemma C8_witness :
  exists b tr,
    VoteFlow.run_upvote_flow no_float calm base_config []
    = (Ret b, (tr ++ [AContextClose; ABrowserClose])%list).
Proof.
  apply (C8_teardown_after_setup no_float calm base_config
           (locals_of calm base_config) (h_setup calm base_config)).
  - vm_compute. reflexivity.
  - reflexivity.
  - reflexivity.
Defined.

(** C8 as stated fails: with no Reddit cookie in Chrome the run launches a
    browser and leaves after closing the browser only; the context is never
    closed. *)
Lemma C8_counterexample :
  VoteFlow.run_upvote_flow no_float logged_out base_config []
  = (Ret false,
     [ALog INFO "Starting upvote flow";
      ALog INFO "Auth: grabbing cookies from Chrome profile, using our own window";
      ALaunch; ANewContext;
      ALog ERROR "No Reddit cookies from Chrome. Log in to Reddit in Chrome first, or use cookies_file.";
      ABrowserClose]).
Proof. vm_compute. reflexivity. Qed.

Lemma C5_witness :
  exists o tr,
    VoteFlow.run_upvote_flow no_float lit base_config [] = (o, tr) /\
    Forall (away_from_votes (streak_url (locals_of lit base_config))) tr /\
    existsb is_click tr = false /\
    o <> Ret false /\
    ((forall h, returns lit h AContextClose = true) ->
     (forall h, returns lit h ABrowserClose = true) ->
     o = Ret true).
Proof.
  apply (C5_skip_when_reached no_float lit base_config
           (locals_of lit base_config) (h_setup lit base_config)
           (snd (before_check lit base_config)) (Some 5%Z)).
  - vm_compute. reflexivity.
  - vm_compute. reflexivity.
  - reflexivity.
  - vm_compute. reflexivity.
Defined.

Lemma C1_witness :
  fst (VoteFlow.run_upvote_flow no_float calm base_config []) = Ret true.
Proof.
  apply (C1_after_check_verdict no_float calm base_config
           (locals_of calm base_config) (h_setup calm base_config)
           (h_before calm base_config) (h_vote calm base_config))
    with (o := Val (false, Some 5%Z))
         (h2 := snd (after_check calm base_config)).
  - vm_compute. reflexivity.
  - vm_compute. reflexivity.
  - vm_compute. reflexivity.
  - vm_compute. reflexivity.
  - reflexivity.
  - reflexivity.
  - vm_compute. reflexivity.
Defined.

(** C1 as stated fails: the run below reaches the check after the removal,
    the status image does not become visible, the check raises, and the run
    returns false. *)
Lemma C1_counterexample :
  VoteFlow.setup no_float late_timeout base_config []
  = (Val (locals_of late_timeout base_config),
     h_setup late_timeout base_config) /\
  VoteFlow.check_before late_timeout base_config
    (locals_of late_timeout base_config) (h_setup late_timeout base_config)
  = (Val tt, h_before late_timeout base_config) /\
  VoteFlow.vote late_timeout (locals_of late_timeout base_config)
    (h_before late_timeout base_config)
  = (Val tt, h_vote late_timeout base_config) /\
  fst (after_check late_timeout base_config) = Exc /\
  last (snd (after_check late_timeout base_config)) ALaunch
  = AWaitVisible FireImage /\
  fst (VoteFlow.run_upvote_flow no_float late_timeout base_config [])
  = Ret false.
Proof. vm_compute. repeat split. Qed.

Lemma C2_witness :
  VoteFlow.run_upvote_flow no_float logged_out base_config []
  = (Ret false,
     [ALog INFO "Starting upvote flow";
      ALog INFO "Auth: grabbing cookies from Chrome profile, using our own window";
      ALaunch; ANewContext;
      ALog ERROR "No Reddit cookies from Chrome. Log in to Reddit in Chrome first, or use cookies_file.";
      ABrowserClose]).
Proof.
  destruct (C2_no_cookies no_float logged_out base_config) as (Chrome & _).
  apply Chrome; try reflexivity.
  intros p H. discriminate H.
Defined.

(** C2 as stated fails: the cookie file below holds no cookie, the
    cookie-file strategy is the one selected, and the run goes on to
    navigate, click and return true. *)
Lemma C2_counterexample :
  VoteFlow.cookies_path calm file_config
  = Some {| anchored := true; parts := ["opt"; "streakbot"; "cookies.json"] |}
  /\ fs_exists calm
       {| anchored := true; parts := ["opt"; "streakbot"; "cookies.json"] |}
     = true
  /\ read_cookies no_float calm
       {| anchored := true; parts := ["opt"; "streakbot"; "cookies.json"] |} []
     = (Val [], [])
  /\ fst (VoteFlow.run_upvote_flow no_float calm file_config []) = Ret true
  /\ existsb is_goto (snd (VoteFlow.run_upvote_flow no_float calm file_config []))
     = true
  /\ existsb is_click (snd (VoteFlow.run_upvote_flow no_float calm file_config []))
     = true.
Proof. vm_compute. repeat split. Qed.

End Witnesses.

(** ** Further properties: strings and cookies *)

Module MoreStrFacts.

Import PyStr PyStrFacts.

Lemma rstrip_rstrip (s : string) : rstrip (rstrip s) = rstrip s.
Proof.
  induction s as [|c r IH]; [reflexivity|].
  cbn [rstrip]. destruct (rstrip r) as [|c' r'] eqn:E.
  - destruct (is_space c) eqn:S; [reflexivity|].
    cbn [rstrip]. now rewrite S.
  - change (rstrip (String c (String c' r')))
      with (match rstrip (String c' r') with
            | EmptyString =>
                if is_space c then EmptyString else String c EmptyString
            | r0 => String c r0
            end).
    now rewrite IH.
Qed.

Lemma lstrip_head (s : string) :
  lstrip s = EmptyString \/
  exists c r, lstrip s = String c r /\ is_space c = false.
Proof.
  induction s as [|c r IH]; [now left|].
  cbn [lstrip]. destruct (is_space c) eqn:S; [exact IH|].
  right. eauto.
Qed.

(** Stripping twice is stripping once. *)
Lemma strip_strip (s : string) : strip (strip s) = strip s.
Proof.
  unfold strip at 1 3.
  assert (L : lstrip (strip s) = strip s).
  { unfold strip. destruct (lstrip_head s) as [->|(c & r & -> & S)];
      [reflexivity|].
    destruct (rstrip_head c r S) as (r' & ->). cbn [lstrip]. now rewrite S. }
  rewrite L. unfold strip. apply rstrip_rstrip.
Qed.

Lemma contains_cons (n s : string) (c : ascii) :
  contains n s = true -> contains n (String c s) = true.
Proof. intros H. cbn [contains]. rewrite H. apply orb_true_r. Qed.

Lemma contains_app_l (n p s : string) :
  contains n s = true -> contains n (p ++ s) = true.
Proof.
  intros H. induction p as [|c p IH]; [exact H|].
  now apply contains_cons.
Qed.




End MoreStrFacts.

Module NumeralFacts.

Import PyStr MoreStrFacts Numeral.







End NumeralFacts.

Module MoreCookieFacts.

Import PyStr PyVal CookieNormalizer PyStrFacts CookieFacts MoreStrFacts.


Section Json.

Variable float_of_str : string -> option spec_float.

(** The expiry of an emitted JSON cookie is the one computed for its
    entry. *)
Lemma json_cookie_expiry (filter : string) (e : pyval) (k : cookie) :
  json_cookie float_of_str filter e = Ok (Some k) ->
  json_expires float_of_str e = Ok (expires k).
Proof.
  unfold json_cookie. intros H.
  destruct (get e "domain" (PStr "")) as [dom|]; [|discriminate].
  destruct (str_in filter dom) as [[]|]; try discriminate.
  destruct dom as [| | | |d| |]; try discriminate.
  destruct (json_expires float_of_str e) as [ex|]; [|discriminate].
  destruct (get e "sameSite" PNone) as [ss|]; [|discriminate].
  repeat match type of H with
         | context [match ?x with _ => _ end] =>
             destruct x; try discriminate H
         end;
    now injection H as <-.
Qed.

(** An entry that is not an object stops the loop with an exception. *)
Lemma json_loop_bad_entry (filter : string) (data : list pyval) (e : pyval) :
  In e data -> (forall d, e <> PDict d) ->
  forall out, exists err,
    json_loop float_of_str filter data out = Raise err.
Proof.
  intros I N. induction data as [|c data IH]; [contradiction|].
  intros out. cbn [json_loop]. destruct I as [->|I].
  - assert (B : json_cookie float_of_str filter e = Raise AttributeError).
    { unfold json_cookie. destruct e; try reflexivity. now destruct (N d). }
    rewrite B. eauto.
  - destruct (json_cookie float_of_str filter c) as [[k|]|err]; eauto.
Qed.

End Json.

End MoreCookieFacts.

Section CookieExtras.

Import PyStr PyVal Config CookieNormalizer Numeral.
Import PyStrFacts CookieFacts MoreStrFacts NumeralFacts MoreCookieFacts.

(** X1.  Every name that [get_subreddits] returns is free of surrounding white
    space. *)
Theorem X1_get_subreddits_stripped (cfg : config) (s : string) :
  In s (get_subreddits cfg) -> strip s = s.
Proof.
  assert (One : forall o,
             In s (match o with
                   | Some t => if nonempty t then [strip t] else []
                   | None => []
                   end) -> strip s = s).
  { intros [t|]; [|contradiction].
    destruct (nonempty t); [|contradiction].
    intros [<-|[]]. apply strip_strip. }
  unfold get_subreddits.
  destruct (cfg_subreddits cfg) as [[[|r raw]|t]|]; try apply One.
  - intros I. apply in_map_iff in I as (t & <- & _). apply strip_strip.
  - destruct (nonempty t); [|apply One]. intros [<-|[]]. apply strip_strip.
Qed.

(** X2.  A non-empty [subreddits] list shadows the [subreddit] key: the names come
    from the list alone, and when every entry of the list is empty no
    subreddit is configured, whatever [subreddit] holds. *)
Theorem X2_get_subreddits_list_shadows (cfg : config) (raw : list string) :
  cfg_subreddits cfg = Some (inl raw) -> raw <> [] ->
  get_subreddits cfg = map strip (filter nonempty raw) /\
  (Forall (fun t => t = "") raw -> get_subreddits cfg = []).
Proof.
  intros E N.
  assert (G : get_subreddits cfg = map strip (filter nonempty raw)).
  { unfold get_subreddits. rewrite E. destruct raw; [congruence | reflexivity]. }
  split; [exact G|]. intros F. rewrite G.
  replace (filter nonempty raw) with (@nil string); [reflexivity|].
  symmetry. clear -F. induction F as [|t l -> _ IH]; [reflexivity|]. exact IH.
Qed.

(** X3.  The status URL is the explicit one when it is set, else the one derived
    from the user name, and it is empty exactly when both are blank. *)
Theorem X3_user_urls_precedence (cfg : config) :
  let username := strip (Config.or_empty (cfg_reddit_username cfg)) in
  let explicit := strip (Config.or_empty (cfg_streak_check_url cfg)) in
  (explicit <> "" -> fst (get_user_urls cfg) = explicit) /\
  (explicit = "" -> username <> "" ->
   fst (get_user_urls cfg)
   = "https://www.reddit.com/user/" ++ username
     ++ "/achievements/category/3/") /\
  (fst (get_user_urls cfg) = "" <-> username = "" /\ explicit = "").
Proof.
  unfold get_user_urls, nonempty.
  generalize (strip (Config.or_empty (cfg_reddit_username cfg))).
  generalize (strip (Config.or_empty (cfg_streak_check_url cfg))).
  generalize (strip (Config.or_empty (cfg_upvoted_page_url cfg))).
  intros up ex us. cbv zeta.
  destruct (String.eqb_spec us "") as [U|U];
    destruct (String.eqb_spec ex "") as [X|X]; cbn [negb fst];
    repeat split; try tauto; try congruence;
    try (intros [E1 E2]; congruence); try (intros E; discriminate E).
  all: match goal with H : _ = "" |- _ => discriminate H end.
Qed.

(** X8.  The Netscape loader works line by line: the records of a file are those
    of its first part followed by those of the rest, and there is at most
    one record per line. *)
Theorem X8_netscape_line_local (l1 l2 : list string) (filter : string) :
  load_cookies_from_netscape_file (l1 ++ l2)%list filter
  = (load_cookies_from_netscape_file l1 filter
     ++ load_cookies_from_netscape_file l2 filter)%list /\
  (List.length (load_cookies_from_netscape_file l1 filter)
   <= List.length l1)%nat.
Proof.
  unfold load_cookies_from_netscape_file. rewrite !netscape_loop_spec.
  simpl. split; [apply flat_map_app|].
  induction l1 as [|l l1 IH]; [reflexivity|]. simpl.
  rewrite length_app. unfold line_cookies at 1.
  destruct (netscape_cookie filter l); simpl; lia.
Qed.

(** X5.  Both file loaders emit only cookies of the filtered domain: the domain of
    every record contains the filter text. *)
Theorem X5_file_cookies_match_filter :
  (forall float_of_str data filter out k,
      load_cookies_from_json float_of_str data filter = Ok out ->
      In k out -> contains filter (domain k) = true) /\
  (forall lines filter k,
      In k (load_cookies_from_netscape_file lines filter) ->
      contains filter (domain k) = true).
Proof.
  assert (L : forall filter d, contains filter d = true ->
                               contains filter (leading_dot d) = true).
  { intros filter d C. unfold leading_dot.
    destruct (startswith d "."); [exact C|].
    now apply (contains_app_l filter "." d). }
  split.
  - intros fo data filter out k H I.
    destruct (json_emitted fo data filter out k H I) as (e & _ & E).
    destruct (json_cookie_fields fo filter e k E) as (d & ss & _ & C & D & _).
    rewrite D. now apply L.
  - intros lines filter k I.
    destruct (netscape_emitted lines filter k I) as (line & _ & E).
    destruct (netscape_cookie_fields filter line k E)
      as (_ & _ & _ & C & _ & _ & D & _).
    rewrite D. now apply L.
Qed.


(** X6.  A JSON entry flagged as a session cookie, or one without an expiration
    date, gives a cookie without expiry. *)
Theorem X6_json_session_has_no_expiry
    (float_of_str : string -> option spec_float) (filter : string)
    (e : pyval) (k : cookie) :
  json_cookie float_of_str filter e = Ok (Some k) ->
  (forall s, get e "session" PNone = Ok s -> truthy s = true ->
             expires k = None) /\
  (get e "expirationDate" PNone = Ok PNone -> expires k = None).
Proof.
  intros H. pose proof (json_cookie_expiry float_of_str filter e k H) as E.
  unfold json_expires in E. split.
  - intros s G T. rewrite G, T in E.
    destruct (get e "expirationDate" PNone); congruence.
  - intros G. rewrite G in E.
    destruct (get e "session" PNone) as [s|]; [|discriminate].
    destruct (truthy s); congruence.
Qed.

(** X7.  One entry that is not an object makes the JSON loader raise: no cookie
    of the file is returned. *)
Theorem X7_json_bad_entry_raises
    (float_of_str : string -> option spec_float) (data : pyval)
    (filter : string) (e : pyval) :
  In e (entries data) -> (forall d, e <> PDict d) ->
  exists err, load_cookies_from_json float_of_str data filter = Raise err.
Proof.
  intros I N. unfold load_cookies_from_json.
  exact (json_loop_bad_entry float_of_str filter (entries data) e I N []).
Qed.

(** X4.  The Chrome loader gives one record per cookie of the jar, in the order
    of the jar, with the name and the value unchanged and sameSite Lax; an
    expiry of zero is dropped. *)
Theorem X4_chrome_jar_order (cj : list jar_cookie) :
  map name (load_cookies_from_chrome (CookieJar cj))
  = map (fun c => PStr (jc_name c)) cj /\
  map value (load_cookies_from_chrome (CookieJar cj))
  = map (fun c => PStr (jc_value c)) cj /\
  Forall (fun k => sameSite k = "Lax" /\ expires k <> Some 0%Z)
    (load_cookies_from_chrome (CookieJar cj)).
Proof.
  simpl. rewrite chrome_fold. simpl. rewrite !map_map. repeat split.
  apply Forall_forall. intros k I. apply in_map_iff in I as (c & <- & _).
  split; [reflexivity|]. simpl.
  destruct (jc_expires c) as [z|]; [|discriminate].
  destruct (Z.eqb z 0) eqn:Z0; [discriminate|].
  apply Z.eqb_neq in Z0. congruence.
Qed.

End CookieExtras.

(** ** Further properties: the flows *)

Module MoreFlowFacts.

Import PyStr Config CookieNormalizer Run StreakDetector Session Trace Trace2.
Import RunFacts FlowFacts SessionFacts.
Local Open Scope flow_scope.

(** Histories whose actions all make a boolean test false. *)
Ltac bstep :=
  match goal with
  | |- traces _ (bind _ _) => apply traces_bind; [|intros]
  | |- traces _ (pure _) => apply traces_pure
  | |- traces _ (ret _) => apply traces_ret
  | |- traces _ raise => apply traces_raise
  | |- traces _ (lift _) => apply traces_lift
  | |- traces _ (log _ _) => apply traces_emit; reflexivity
  | |- traces _ (sleep _) => apply traces_emit; reflexivity
  | |- traces _ (emit _) => apply traces_emit; reflexivity
  | |- traces _ (call _ _) => apply traces_call; reflexivity
  | |- traces _ (query _ _) => apply traces_query; reflexivity
  | |- traces _ (pages _) => apply traces_pages; reflexivity
  | |- traces _ (locator_all _ _) => apply traces_locator_all; reflexivity
  | |- traces _ (attempt _ _) => apply traces_attempt
  | |- traces _ (if ?c then _ else _) => destruct c
  | |- traces _ (match ?x with _ => _ end) => destruct x
  end.

Ltac btrace := repeat bstep.

Section World.

Variable float_of_str : string -> option spec_float.
Variable w : world.

Lemma read_cookies_no_status (p : fspath) :
  traces no_status (read_cookies float_of_str w p).
Proof. unfold read_cookies. btrace. Qed.

Lemma setup_no_status (cfg : config) :
  traces no_status (VoteFlow.setup float_of_str w cfg).
Proof.
  unfold VoteFlow.setup, VoteFlow.open_session, VoteFlow.auth_cookies_file,
    VoteFlow.auth_chrome, VoteFlow.auth_persistent.
  btrace; apply read_cookies_no_status.
Qed.

Lemma vote_no_status (l : locals) : traces no_status (VoteFlow.vote w l).
Proof. unfold VoteFlow.vote, VoteFlow.or_else. btrace. Qed.

Lemma teardown_no_status (l : locals) :
  traces no_status (VoteFlow.teardown w l).
Proof. unfold VoteFlow.teardown. btrace. Qed.

(** The locals that the set-up hands to the guarded block. *)
Lemma setup_locals (cfg : config) (l : locals) (h h0 : history) :
  VoteFlow.setup float_of_str w cfg h = (Val l, h0) ->
  streak_url l = fst (get_user_urls cfg) /\
  wait_seconds l
  = Drawn (cfg_wait_seconds_min cfg) (cfg_wait_seconds_max cfg) /\
  exists subreddit,
    In subreddit (get_subreddits cfg) /\
    url l = "https://www.reddit.com/r/" ++ subreddit ++ "/top/?t=day".
Proof.
  unfold VoteFlow.setup.
  destruct (get_subreddits cfg) as [|s0 subs] eqn:G.
  { unfold is_nil, bind, log, emit, ret. discriminate. }
  cbn [is_nil]. intros H.
  apply bind_val_inv in H as ([] & h1 & _ & H).
  apply bind_val_inv in H as (b & h2 & _ & H).
  apply bind_val_inv in H as ([] & h3 & _ & H).
  injection H as <- _.
  split; [reflexivity|]. split; [reflexivity|].
  exists (nth (rand_subreddit w mod List.length (s0 :: subs)) (s0 :: subs) "").
  split; [|reflexivity].
  apply nth_In. apply Nat.mod_upper_bound. discriminate.
Qed.

(** The run after the set-up, whatever the [finally] block does. *)
Lemma run_after_steps (cfg : config) (l : locals) (h h0 h1 : history)
    (o : outcome unit) :
  VoteFlow.setup float_of_str w cfg h = (Val l, h0) ->
  VoteFlow.steps w cfg l h0 = (o, h1) ->
  exists f t,
    VoteFlow.teardown w l (handled o h1) = (f, (handled o h1 ++ t)%list) /\
    Forall idle t /\ Forall no_status t /\
    (forall b, f <> Ret b) /\
    VoteFlow.run_upvote_flow float_of_str w cfg h
    = (match f with
       | Val _ => Ret (verdict_of o)
       | Ret b => Ret b
       | Exc => Exc
       end, (handled o h1 ++ t)%list).
Proof.
  intros S B.
  destruct (VoteFlow.teardown w l (handled o h1)) as [f h3] eqn:Td.
  destruct (traces_run _ _ _ _ (teardown_idle w l) Td) as (t & E & F).
  destruct (traces_run _ _ _ _ (teardown_no_status l) Td) as (t' & E' & F').
  subst h3. apply app_inv_head in E'. subst t'.
  exists f, t. repeat split; try assumption.
  - intros b ->. revert Td.
    unfold VoteFlow.teardown, bind, log, emit, call, pure.
    intros H. crack H.
  - unfold VoteFlow.run_upvote_flow. rewrite (bind_val _ _ _ _ _ S).
    unfold bind at 1, try_except_finally. rewrite B.
    destruct o as [[]|b|]; cbn [handled] in *;
      unfold VoteFlow.on_error, bind, log, emit, ret; cbn [handled];
      rewrite Td; destruct f; reflexivity.
Qed.

End World.

End MoreFlowFacts.

Section FlowExtras.

Import PyStr PyPath Config CookieNormalizer Run StreakDetector Session.
Import Trace Trace2 RunFacts FlowFacts SessionFacts MoreFlowFacts.
Local Open Scope flow_scope.

Variable float_of_str : string -> option spec_float.
Variable w : world.

(** X10.  With no subreddit configured the vote flow logs an error and returns
    false; it launches nothing. *)
Theorem X10_no_subreddit_aborts (cfg : config) (h : history) :
  get_subreddits cfg = [] ->
  VoteFlow.run_upvote_flow float_of_str w cfg h
  = (Ret false, (h ++ [ALog ERROR "No subreddit(s) in config."])%list).
Proof.
  intros G. unfold VoteFlow.run_upvote_flow, VoteFlow.setup. now rewrite G.
Qed.

(** X21.  With no status URL the standalone check logs an error and returns false;
    it launches nothing. *)
Theorem X21_no_status_url_aborts (cfg : config) (h : history) :
  fst (get_user_urls cfg) = "" ->
  StandaloneCheck.run_streak_check float_of_str w cfg h
  = (Ret false,
     (h ++ [ALog ERROR "test_mode is true but reddit_username (or streak_check_url) is not set in config."])%list).
Proof.
  intros G. unfold StandaloneCheck.run_streak_check. now rewrite G.
Qed.

(** X22.  The standalone check never touches a vote button and navigates nowhere
    but to the status URL, in every world. *)
Theorem X22_standalone_check_away_from_votes (cfg : config) :
  traces (away_from_votes (fst (get_user_urls cfg)))
    (StandaloneCheck.run_streak_check float_of_str w cfg).
Proof.
  unfold StandaloneCheck.run_streak_check.
  destruct (negb (nonempty (fst (get_user_urls cfg)))).
  { trace. }
  apply traces_bind.
  - eapply traces_weaken; [apply idle_away|].
    unfold StandaloneCheck.open_session, StandaloneCheck.auth_cookies_file,
      StandaloneCheck.auth_chrome, StandaloneCheck.auth_persistent.
    trace; apply read_cookies_idle.
  - intros b. trace.
    apply traces_try.
    + unfold StandaloneCheck.report. trace.
      * eapply traces_weaken; [apply idle_away | apply read_streak_days_idle].
      * unfold status_line.
        destruct (_ || _); [|destruct (_ || _)]; apply traces_emit;
          split; try reflexivity; intros v E; discriminate E.
    + unfold StandaloneCheck.on_error. trace.
    + unfold StandaloneCheck.teardown. trace.
Qed.

(** X23.  Once its session is open the standalone check returns true when the
    report falls through and false when it raises, and it closes the context
    and then the browser it launched (the close calls returning). *)
Theorem X23_standalone_check_verdict (cfg : config) (h h1 h2 : history)
    (b : bool) (o : outcome unit) :
  nonempty (fst (get_user_urls cfg)) = true ->
  StandaloneCheck.open_session float_of_str w cfg h = (Val b, h1) ->
  returns w h1 (ASetDefaultTimeout 20000) = true ->
  StandaloneCheck.report w (fst (get_user_urls cfg))
    (h1 ++ [ASetDefaultTimeout 20000])%list = (o, h2) ->
  (forall h', returns w h' AContextClose = true) ->
  (forall h', returns w h' ABrowserClose = true) ->
  (forall v, o <> Ret v) /\
  StandaloneCheck.run_streak_check float_of_str w cfg h
  = (Ret (verdict_of o),
     ((match o with
       | Exc => h2 ++ [ALog ERROR "Streak check failed: %s"]
       | _ => h2
       end) ++ [AContextClose]
        ++ (if b then [ABrowserClose] else []))%list).
Proof.
  intros N O T R Cc Cb.
  assert (Nr : forall v, o <> Ret v).
  { intros v ->. revert R.
    unfold StandaloneCheck.report, bind, log, sleep, emit, call, query, pure.
    intros H; crack H;
      repeat match goal with
             | Q : match ?x with _ => _ end = _ |- _ =>
                 destruct x; try discriminate Q
             end.
    all: match goal with
         | Q : read_streak_days _ ?hh = _ |- _ =>
             destruct (read_streak_days_val w hh) as (? & ? & E);
             rewrite E in Q; congruence
         end. }
  split; [exact Nr|].
  unfold StandaloneCheck.run_streak_check. rewrite N. cbn [negb].
  rewrite (bind_val _ _ _ _ _ O).
  rewrite (bind_val _ _ _ _ _ (call_run w _ _ T)).
  unfold bind at 1, try_except_finally. rewrite R.
  unfold StandaloneCheck.teardown, StandaloneCheck.on_error,
    bind, log, emit, call, ret, pure.
  destruct o as [[]|v|]; [| now destruct (Nr v) |];
    rewrite Cc; destruct b; rewrite ?Cb; cbn [verdict_of];
    rewrite <- ?app_assoc; reflexivity.
Qed.

(** X12.  In test mode the gating check never skips the vote: it has no return of
    its own, and on a status page that reports the streak reached it falls
    through to the vote. *)
Theorem X12_test_mode_never_skips (cfg : config) (l : locals) (h : history) :
  cfg_test_mode cfg = true ->
  (forall b h', VoteFlow.check_before w cfg l h <> (Ret b, h')) /\
  (forall d h1,
      nonempty (streak_url l) = true ->
      check_streak_on_page w (streak_url l)
        (h ++ [ALog INFO "Checking streak status before upvote..."])%list
      = (Val (true, d), h1) ->
      VoteFlow.check_before w cfg l h
      = (Val tt,
         (h1 ++ days_line d
             ++ [ALog INFO "Streak already reached today; test_mode: doing upvote anyway."])%list)).
Proof.
  intros T. split.
  - intros b h'. unfold VoteFlow.check_before.
    destruct (nonempty (streak_url l)); [|discriminate].
    unfold bind at 1, log at 1, emit at 1.
    destruct (check_streak_on_page w (streak_url l)
                (h ++ [ALog INFO "Checking streak status before upvote..."])%list)
      as [[[r d]|v|] h1] eqn:C.
    + rewrite (bind_val _ _ _ _ _ C). cbn [fst snd]. rewrite T.
      destruct d, r; unfold bind, log, emit, pure; cbn; discriminate.
    + now destruct (check_streak_no_return w _ _ _ _ C).
    + rewrite (bind_exc _ _ _ _ C). discriminate.
  - intros d h1 N C. unfold VoteFlow.check_before. rewrite N.
    unfold bind at 1, log at 1, emit at 1.
    rewrite (bind_val _ _ _ _ _ C). cbn [fst snd]. rewrite T.
    destruct d; unfold bind, log, emit, pure, days_line; cbn;
      rewrite <- ?app_assoc; reflexivity.
Qed.

(** X13.  When the gating check raises, the run touches no vote button, navigates
    nowhere but to the status URL and never returns true; it returns false
    when the two close calls return. *)
Theorem X13_failed_gate_aborts (cfg : config) (l : locals) (h0 h1 : history) :
  VoteFlow.setup float_of_str w cfg [] = (Val l, h0) ->
  nonempty (streak_url l) = true ->
  check_streak_on_page w (streak_url l)
    (h0 ++ [ALog INFO "Checking streak status before upvote..."])%list
  = (Exc, h1) ->
  exists o tr,
    VoteFlow.run_upvote_flow float_of_str w cfg [] = (o, tr) /\
    Forall (away_from_votes (streak_url l)) tr /\
    o <> Ret true /\
    ((forall h, returns w h AContextClose = true) ->
     (forall h, returns w h ABrowserClose = true) ->
     o = Ret false).
Proof.
  intros S N C.
  assert (St : VoteFlow.steps w cfg l h0 = (Exc, h1)).
  { unfold VoteFlow.steps, VoteFlow.check_before. rewrite N.
    unfold bind at 1 2, log at 1, emit at 1.
    now rewrite (bind_exc _ _ _ _ C). }
  destruct (run_after_steps float_of_str w cfg l [] h0 h1 Exc S St)
    as (f & t & Td & Fi & _ & Nf & R).
  exists (match f with Val _ => Ret (verdict_of Exc) | Ret b => Ret b | Exc => Exc end),
         (handled Exc h1 ++ t)%list.
  split; [exact R|]. split; [|split].
  - destruct (traces_run _ _ _ _ (setup_idle float_of_str w cfg) S)
      as (t0 & E0 & F0). simpl in E0. subst h0.
    destruct (traces_run _ _ _ _ (check_streak_traces w (streak_url l)) C)
      as (tc & Ec & Fc). subst h1. cbn [handled].
    apply Forall_app; split;
      [apply Forall_app; split;
         [apply Forall_app; split; [apply Forall_app; split|]|]|].
    + eapply Forall_impl; [apply idle_away | exact F0].
    + repeat constructor; intros v E; discriminate E.
    + exact Fc.
    + repeat constructor; intros v E; discriminate E.
    + eapply Forall_impl; [apply idle_away | exact Fi].
  - destruct f as [|b|]; try discriminate. now destruct (Nf b).
  - intros Cc Cb. rewrite (teardown_run w Cc Cb) in Td.
    now injection Td as <- _.
Qed.

(** X14.  With no status URL the vote flow performs no status check: in every
    world its history holds no query of the status page. *)
Theorem X14_no_status_url_no_check (cfg : config) :
  fst (get_user_urls cfg) = "" ->
  traces no_status (VoteFlow.run_upvote_flow float_of_str w cfg).
Proof.
  intros U h.
  destruct (VoteFlow.setup float_of_str w cfg h) as [o h0] eqn:S.
  destruct (traces_run _ _ _ _ (setup_no_status float_of_str w cfg) S)
    as (t0 & -> & F0).
  destruct o as [l|b|].
  - destruct (setup_locals float_of_str w cfg l _ _ S) as (Ul & _).
    rewrite U in Ul.
    assert (Tr : traces no_status (VoteFlow.steps w cfg l)).
    { unfold VoteFlow.steps, VoteFlow.check_before, VoteFlow.check_after.
      rewrite Ul. cbn [nonempty String.eqb negb].
      btrace. apply vote_no_status. }
    destruct (VoteFlow.steps w cfg l (h ++ t0)%list) as [o h1] eqn:St.
    destruct (traces_run _ _ _ _ Tr St) as (t1 & -> & F1).
    destruct (run_after_steps float_of_str w cfg l h _ _ o S St)
      as (f & t & _ & _ & Ft & _ & R).
    rewrite R. cbn [snd].
    exists (t0 ++ (match o with
                   | Exc => t1 ++ [ALog ERROR "Error during upvote flow: %s"]
                   | _ => t1
                   end) ++ t)%list.
    split.
    + destruct o; cbn [handled]; now rewrite <- ?app_assoc.
    + apply Forall_app; split; [exact F0|]. apply Forall_app; split; [|exact Ft].
      destruct o; try exact F1. apply Forall_app; split; [exact F1|].
      repeat constructor.
  - exists t0. unfold VoteFlow.run_upvote_flow. rewrite (bind_ret _ _ _ _ _ S).
    auto.
  - exists t0. unfold VoteFlow.run_upvote_flow. rewrite (bind_exc _ _ _ _ S).
    auto.
Qed.

End FlowExtras.

(** ** Further properties: the clicks of a run *)

Module ClickFacts.

Import PyStr Config CookieNormalizer Run StreakDetector Session Trace Trace2.
Import RunFacts FlowFacts SessionFacts MoreFlowFacts.
Local Open Scope flow_scope.

Lemma clicks_app (t1 t2 : history) :
  clicks (t1 ++ t2)%list = (clicks t1 ++ clicks t2)%list.
Proof. apply flat_map_app. Qed.

Lemma clicks_silent (t : history) : Forall silent t -> clicks t = [].
Proof.
  induction 1 as [|a t Ha _ IH]; [reflexivity|].
  destruct a; try discriminate Ha; exact IH.
Qed.

Lemma idle_silent (a : action) : idle a -> silent a.
Proof. intros [T _]. now destruct a. Qed.

Lemma away_silent (u : string) (a : action) : away_from_votes u a -> silent a.
Proof. intros [T _]. now destruct a. Qed.

Lemma spec_bind {A B} (S : outcome A -> list element -> Prop)
    (T : outcome B -> list element -> Prop) (m : M A) (k : A -> M B) :
  spec S m ->
  (forall a c, S (Val a) c -> spec (fun o c' => T o (c ++ c')%list) (k a)) ->
  (forall b c, S (Ret b) c -> T (Ret b) c) ->
  (forall c, S Exc c -> T Exc c) ->
  spec T (bind m k).
Proof.
  intros Sm Sk Sr Se h. unfold bind.
  destruct (Sm h) as (t1 & E1 & H1).
  destruct (m h) as [[a|b|] h1]; simpl in E1, H1; subst h1.
  - destruct (Sk a _ H1 (h ++ t1)%list) as (t2 & E2 & H2).
    exists (t1 ++ t2)%list. rewrite E2, app_assoc, clicks_app.
    split; [reflexivity | exact H2].
  - exists t1. simpl. auto.
  - exists t1. simpl. auto.
Qed.

Lemma spec_weaken {A} (S T : outcome A -> list element -> Prop) (m : M A) :
  (forall o c, S o c -> T o c) -> spec S m -> spec T m.
Proof.
  intros ST Sm h. destruct (Sm h) as (t & E & H). exists t. auto.
Qed.

Section Shape.

Variable w : world.
Variable P : list element -> Prop.
Hypothesis P_nil : P [].

Lemma quiet_end {A} (m : M A) : traces silent m -> spec (fun _ => P) m.
Proof.
  intros Tm h. destruct (Tm h) as (t & E & F). exists t.
  split; [exact E|]. now rewrite (clicks_silent t F).
Qed.

Lemma quiet_bind {A B} (m : M A) (k : A -> M B) :
  traces silent m -> (forall a, spec (fun _ => P) (k a)) ->
  spec (fun _ => P) (bind m k).
Proof.
  intros Tm Sk.
  apply (spec_bind (fun _ c => c = [])); auto.
  - intros h. destruct (Tm h) as (t & E & F). exists t.
    split; [exact E | apply clicks_silent, F].
  - intros a c ->. exact (Sk a).
  - now intros b c ->.
  - now intros c ->.
Qed.

Lemma then_quiet {A B} (m : M A) (k : A -> M B) :
  spec (fun _ => P) m -> (forall a, traces silent (k a)) ->
  spec (fun _ => P) (bind m k).
Proof.
  intros Sm Tk.
  apply (spec_bind (fun _ => P)); auto.
  intros a c Pc h. destruct (Tk a h) as (t & E & F). exists t.
  split; [exact E|]. now rewrite (clicks_silent t F), app_nil_r.
Qed.

Lemma try_quiet {A} (body handler : M A) (final : M unit) :
  spec (fun _ => P) body -> traces silent handler -> traces silent final ->
  spec (fun _ => P) (try_except_finally body handler final).
Proof.
  intros Sb Th Tf h. unfold try_except_finally.
  destruct (Sb h) as (t1 & E1 & P1).
  destruct (body h) as [o h1]; simpl in E1, P1; subst h1.
  assert (Fin : forall (o' : outcome A) t2, clicks t2 = [] ->
            exists t,
              snd (let (f, h3) := final ((h ++ t1) ++ t2)%list in
                   match f with
                   | Val _ => (o', h3)
                   | Ret b => (Ret b, h3)
                   | Exc => (Exc, h3)
                   end) = (h ++ t)%list /\ P (clicks t)).
  { intros o' t2 C2. destruct (Tf ((h ++ t1) ++ t2)%list) as (t3 & E3 & F3).
    destruct (final ((h ++ t1) ++ t2)%list) as [f h3]; simpl in E3; subst h3.
    exists (t1 ++ t2 ++ t3)%list.
    split; [destruct f; simpl; now rewrite <- !app_assoc|].
    now rewrite !clicks_app, C2, (clicks_silent t3 F3), !app_nil_r. }
  destruct o as [a|b|].
  - destruct (Fin (Val a) [] eq_refl) as (t & E & Pt).
    rewrite app_nil_r in E. exists t.
    destruct (final (h ++ t1)%list) as [[] ?]; auto.
  - destruct (Fin (Ret b) [] eq_refl) as (t & E & Pt).
    rewrite app_nil_r in E. exists t.
    destruct (final (h ++ t1)%list) as [[] ?]; auto.
  - destruct (Th (h ++ t1)%list) as (t2 & E2 & F2).
    destruct (handler (h ++ t1)%list) as [o' h2]; simpl in E2; subst h2.
    destruct (Fin o' t2 (clicks_silent t2 F2)) as (t & E & Pt).
    exists t. destruct (final ((h ++ t1) ++ t2)%list) as [[] ?]; auto.
Qed.

(** What a locator returns is empty or starts with its first match. *)
Lemma locator_bind {B} (ok : selector -> bool) (sel : selector)
    (k : list element -> M B) :
  ok sel = true ->
  (forall l, head_ok ok l -> spec (fun _ => P) (k l)) ->
  spec (fun _ => P) (bind (locator_all w sel) k).
Proof.
  intros Ok Sk.
  apply (spec_bind (fun o c => c = [] /\ forall l, o = Val l -> head_ok ok l));
    auto.
  - intros h. exists [AAll sel]. unfold locator_all. cbn [fst snd].
    split; [reflexivity|]. split; [reflexivity|].
    intros l E. destruct (count w h (AAll sel)) as [[|n]|]; try discriminate E;
      injection E as <-; cbn; [exact I|].
    unfold first_of. cbn. now rewrite Ok.
  - intros l c [-> H]. exact (Sk l (H l eq_refl)).
  - now intros b c [-> _].
  - now intros c [-> _].
Qed.

Lemma or_else_bind {B} (ok : selector -> bool) (found : list element)
    (sel : selector) (k : list element -> M B) :
  ok sel = true -> head_ok ok found ->
  (forall l, head_ok ok l -> spec (fun _ => P) (k l)) ->
  spec (fun _ => P) (bind (VoteFlow.or_else w found sel) k).
Proof.
  intros Ok Hf Sk. unfold VoteFlow.or_else.
  destruct found as [|e found]; cbn [is_nil].
  - now apply (locator_bind ok).
  - intros h. unfold bind, pure. apply (Sk (e :: found) Hf).
Qed.

End Shape.

Ltac shape_nil := first [assumption | reflexivity].

Ltac shape_step w :=
  match goal with
  | |- spec (fun _ => ?P) (bind (locator_all _ _) _) =>
      first
        [ apply (locator_bind w P ltac:(shape_nil) upvote_selector);
          [reflexivity | intros ? ?]
        | apply (locator_bind w P ltac:(shape_nil) removal_selector);
          [reflexivity | intros ? ?] ]
  | |- spec (fun _ => ?P) (bind (VoteFlow.or_else _ _ _) _) =>
      first
        [ apply (or_else_bind w P ltac:(shape_nil) upvote_selector);
          [reflexivity | assumption | intros ? ?]
        | apply (or_else_bind w P ltac:(shape_nil) removal_selector);
          [reflexivity | assumption | intros ? ?] ]
  | |- spec (fun _ => ?P) (bind _ _) =>
      apply (quiet_bind P ltac:(shape_nil));
      [solve [unfold VoteFlow.or_else; btrace] | intros]
  end.

Section Vote.

Variable float_of_str : string -> option spec_float.
Variable w : world.

(** Scrolling to a control and clicking it: the block falls through only
    after the click. *)
Lemma click_block (e : element) (lvl : level) (msg : string) :
  spec (fun o c => match o with
                   | Val _ => c = [e]
                   | _ => c = [] \/ c = [e]
                   end)
    (call w (AScroll e) ;; sleep (Millis 300) ;; call w (AClick e) ;;
     log lvl msg).
Proof.
  intros h. unfold bind, call, sleep, log, emit.
  destruct (returns w h (AScroll e)).
  - destruct (returns w _ (AClick e)).
    + exists [AScroll e; ASleep (Millis 300); AClick e; ALog lvl msg].
      cbn. now rewrite <- !app_assoc.
    + exists [AScroll e; ASleep (Millis 300); AClick e].
      cbn. rewrite <- !app_assoc. auto.
  - exists [AScroll e]. cbn. auto.
Qed.

(** A block that ends in a [return] without a click. *)
Lemma leave_block (lvl : level) (msg : string) (b : bool) :
  spec (fun (o : outcome unit) c => c = [] /\ forall a, o <> Val a)
    (log lvl msg ;; call w AContextClose ;; ret b).
Proof.
  intros h. unfold bind, call, log, emit, ret.
  exists [ALog lvl msg; AContextClose].
  destruct (returns w _ AContextClose); cbn; rewrite <- !app_assoc;
    (split; [reflexivity | split; [reflexivity | intros a E; discriminate E]]).
Qed.

Lemma vote_disciplined (l : locals) :
  spec (fun _ c => disciplined c = true) (VoteFlow.vote w l).
Proof.
  unfold VoteFlow.vote.
  repeat shape_step w.
  destruct (_ <? _)%nat.
  { apply quiet_end; [reflexivity | btrace]. }
  repeat shape_step w.
  match goal with |- spec _ (match ?x with _ => _ end) => destruct x end.
  2: { apply quiet_end; [reflexivity | btrace]. }
  repeat shape_step w.
  match goal with
  | H : head_ok upvote_selector ?x |- _ => destruct x as [|u ?]
  end.
  { eapply spec_bind; [apply leave_block | | |]; cbn beta.
    - intros v0 c0 [_ N]. now destruct (N v0).
    - now intros b0 c0 [-> _].
    - now intros c0 [-> _]. }
  match goal with H : head_ok upvote_selector (u :: _) |- _ =>
    cbn [head_ok] in H; rename H into U end.
  eapply spec_bind; [apply click_block | | |]; cbn beta.
  2: { intros b0 c0 [->| ->]; cbn; [reflexivity | exact U]. }
  2: { intros c0 [->| ->]; cbn; [reflexivity | exact U]. }
  intros [] c0 ->. cbn [app].
  assert (U1 : disciplined [u] = true) by exact U.
  repeat shape_step w.
  match goal with
  | H : head_ok removal_selector ?x |- _ => destruct x as [|r ?]
  end.
  { apply quiet_end; [exact U1 | btrace]. }
  match goal with H : head_ok removal_selector (r :: _) |- _ =>
    cbn [head_ok] in H; rename H into R end.
  eapply spec_weaken; [|apply click_block].
  intros o0 c1 Hc. cbn beta.
  assert (D : disciplined [u; r] = true).
  { cbn [disciplined]. now rewrite U, R. }
  destruct o0; [subst c1; exact D | |];
    (destruct Hc as [->| ->]; [exact U1 | exact D]).
Qed.

End Vote.

End ClickFacts.

(** ** Further properties: the choice of the post *)

Module PickFacts.

Import PyStr Config CookieNormalizer Run StreakDetector Session Trace Trace2.
Import RunFacts FlowFacts SessionFacts MoreFlowFacts.
Local Open Scope flow_scope.

Lemma yields_bind {A B} (P : action -> Prop) (Q : A -> Prop) (m : M A)
    (k : A -> M B) :
  yields P Q m -> (forall a, Q a -> traces P (k a)) -> traces P (bind m k).
Proof.
  intros Ym Tk h. unfold bind.
  destruct (Ym h) as (t1 & E1 & F1 & Q1).
  destruct (m h) as [[a|b|] h1]; simpl in E1, Q1; subst h1; simpl; eauto.
  destruct (Tk a (Q1 a eq_refl) (h ++ t1)%list) as (t2 & E2 & F2).
  exists (t1 ++ t2)%list. rewrite E2, app_assoc. split; [reflexivity|].
  apply Forall_app; auto.
Qed.

Lemma listed_nil : listed [].
Proof. intros i L. inversion L. Qed.

Lemma listed_all (sel : selector) (n : nat) :
  listing_selector sel = true -> listed (map (fun i => (sel, i)) (seq 0 n)).
Proof.
  intros S i L. rewrite length_map, length_seq in L.
  rewrite (nth_indep _ (ListPostIcon, 0%nat) (sel, 0%nat))
    by now rewrite length_map, length_seq.
  rewrite (map_nth (fun i => (sel, i)) (seq 0 n) 0%nat i).
  rewrite seq_nth by exact L. split; [exact S | reflexivity].
Qed.

Section World.

Variable w : world.

Let P (a : action) : Prop := picks_top_three a = true.

Lemma yields_locator (sel : selector) :
  listing_selector sel = true -> yields P listed (locator_all w sel).
Proof.
  intros S h. exists [AAll sel]. unfold locator_all. cbn [fst snd].
  split; [reflexivity|]. split; [repeat constructor|].
  intros l E. destruct (count w h (AAll sel)) as [n|]; [|discriminate E].
  injection E as <-. now apply listed_all.
Qed.

Lemma yields_or_else (found : list element) (sel : selector) :
  listing_selector sel = true -> listed found ->
  yields P listed (VoteFlow.or_else w found sel).
Proof.
  intros S L. unfold VoteFlow.or_else. destruct (is_nil found).
  - now apply yields_locator.
  - intros h. exists []. cbn. rewrite app_nil_r.
    split; [reflexivity|]. split; [constructor|].
    intros l E. now injection E as <-.
Qed.

Lemma yields_page_wide (found : list element) :
  listed found ->
  yields P listed
    (if is_nil found
     then log DEBUG "No upvote in shreddit-post, trying page-wide selectors" ;;
          locator_all w ListPageIcon
     else pure found).
Proof.
  intros L. destruct (is_nil found).
  - intros h. unfold bind, log, emit, locator_all. cbn [fst snd].
    exists [ALog DEBUG "No upvote in shreddit-post, trying page-wide selectors";
            AAll ListPageIcon].
    rewrite <- app_assoc. split; [reflexivity|]. split; [repeat constructor|].
    intros l E. destruct (count w _ (AAll ListPageIcon)) as [n|];
      [|discriminate E].
    injection E as <-. now apply listed_all.
  - intros h. exists []. cbn. rewrite app_nil_r.
    split; [reflexivity|]. split; [constructor|].
    intros l E. now injection E as <-.
Qed.

(** The button that the flow picks is one of the first three. *)
Lemma choice_top_three (upvotes : list element) :
  listed upvotes -> (List.length upvotes <? 1)%nat = false ->
  let n := Nat.min 3 (List.length upvotes) in
  let choice := if (0 <? n)%nat then (rand_post w mod n)%nat else 0%nat in
  P (AEvaluate (nth choice upvotes (ListPostIcon, 0%nat))).
Proof.
  intros L N n choice. apply Nat.ltb_ge in N.
  assert (Hn : (0 < n)%nat) by (unfold n; lia).
  assert (C : (choice < n)%nat).
  { unfold choice. destruct (0 <? n)%nat; [|exact Hn].
    apply Nat.mod_upper_bound. lia. }
  destruct (L choice) as (S & I); [unfold n in C; lia|].
  unfold P, picks_top_three. rewrite S, I. cbn [andb].
  apply Nat.ltb_lt. unfold n in C. lia.
Qed.

Lemma vote_picks (l : locals) : traces P (VoteFlow.vote w l).
Proof.
  unfold VoteFlow.vote.
  do 6 (apply traces_bind; [solve [btrace] | intros _]).
  apply (yields_bind P listed); [now apply yields_locator | intros u1 L1].
  apply (yields_bind P listed); [now apply yields_or_else | intros u2 L2].
  apply (yields_bind P listed); [now apply yields_or_else | intros u3 L3].
  apply (yields_bind P listed); [now apply yields_page_wide | intros u4 L4].
  apply (yields_bind P listed); [now apply yields_or_else | intros u5 L5].
  destruct (List.length u5 <? 1)%nat eqn:N; [btrace|].
  do 3 (apply traces_bind; [solve [btrace] | intros _]).
  apply traces_bind.
  - apply traces_attempt. apply traces_bind; [|intros; apply traces_pure].
    apply traces_query. exact (choice_top_three u5 L5 N).
  - intros post_url. unfold VoteFlow.or_else. btrace.
Qed.

End World.

End PickFacts.

(** ** Further properties: how a block leaves *)

Module LeaveFacts.

Import PyStr Config CookieNormalizer Run StreakDetector Session Trace Trace2.
Import RunFacts FlowFacts SessionFacts MoreFlowFacts.
Local Open Scope flow_scope.

Lemma closed_bind {A B} (m : M A) (k : A -> M B) :
  closed_on_false m -> (forall a, closed_on_false (k a)) ->
  closed_on_false (bind m k).
Proof.
  intros Cm Ck h h' E. unfold bind in E.
  destruct (m h) as [[a|b|] h1] eqn:Em.
  - exact (Ck a h1 h' E).
  - injection E as -> ->. exact (Cm h h' Em).
  - discriminate E.
Qed.

Lemma closed_emit (a : action) : closed_on_false (emit a).
Proof. intros h h' E. discriminate E. Qed.

Lemma closed_pure {A} (a : A) : closed_on_false (pure a).
Proof. intros h h' E. discriminate E. Qed.

Lemma closed_ret_true {A} : closed_on_false (@ret A true).
Proof. intros h h' E. discriminate E. Qed.

Section World.

Variable w : world.

Lemma closed_call (a : action) : closed_on_false (call w a).
Proof. intros h h' E. unfold call in E. destruct (returns w h a); discriminate E. Qed.

Lemma closed_query (a : action) : closed_on_false (query w a).
Proof. intros h h' E. unfold query in E. destruct (text w h a); discriminate E. Qed.

Lemma closed_locator (sel : selector) : closed_on_false (locator_all w sel).
Proof.
  intros h h' E. unfold locator_all in E.
  destruct (count w h (AAll sel)); discriminate E.
Qed.

Lemma closed_attempt {A} (m : M A) (a : A) :
  closed_on_false m -> closed_on_false (attempt m a).
Proof.
  intros Cm h h' E. unfold attempt in E.
  destruct (m h) as [[v|b|] h1] eqn:Em; try discriminate E.
  injection E as -> ->. exact (Cm h h' Em).
Qed.

(** [context.close(); return False] *)
Lemma closed_leave : closed_on_false (call w AContextClose ;; @ret unit false).
Proof.
  intros h h' E. unfold bind, call, ret in E.
  destruct (returns w h AContextClose); [|discriminate E].
  injection E as <-. now exists h.
Qed.

Lemma closed_check_streak (u : string) :
  closed_on_false (check_streak_on_page w u).
Proof.
  intros h h' E. now destruct (check_streak_no_return w u h h' false).
Qed.

End World.

Ltac cstep w :=
  match goal with
  | |- closed_on_false (bind (call _ AContextClose) (fun _ => ret false)) =>
      apply closed_leave
  | |- closed_on_false (bind _ _) => apply closed_bind; [|intros]
  | |- closed_on_false (pure _) => apply closed_pure
  | |- closed_on_false (ret true) => apply closed_ret_true
  | |- closed_on_false (log _ _) => apply closed_emit
  | |- closed_on_false (sleep _) => apply closed_emit
  | |- closed_on_false (call _ _) => apply closed_call
  | |- closed_on_false (query _ _) => apply closed_query
  | |- closed_on_false (locator_all _ _) => apply closed_locator
  | |- closed_on_false (attempt _ _) => apply closed_attempt
  | |- closed_on_false (check_streak_on_page _ _) => apply closed_check_streak
  | |- closed_on_false (if ?c then _ else _) => destruct c
  | |- closed_on_false (match ?x with _ => _ end) => destruct x
  end.

Lemma steps_closed (w : world) (cfg : config) (l : locals) :
  closed_on_false (VoteFlow.steps w cfg l).
Proof.
  unfold VoteFlow.steps, VoteFlow.check_before, VoteFlow.vote,
    VoteFlow.check_after, VoteFlow.or_else.
  repeat cstep w.
Qed.

End LeaveFacts.

Section RunExtras.

Import PyStr PyPath Config CookieNormalizer Run StreakDetector Session.
Import Trace Trace2 RunFacts FlowFacts SessionFacts MoreFlowFacts.
Import ClickFacts PickFacts LeaveFacts.
Local Open Scope flow_scope.

Variable float_of_str : string -> option spec_float.
Variable w : world.

(** X16.  In every world a run of the vote flow clicks at most twice: first the
    first match of an upvote selector of the post page, then the first match
    of a removal selector; it never clicks on the listing, and never removes
    without having upvoted. *)
Theorem X16_click_discipline (cfg : config) (h : history) :
  exists t,
    snd (VoteFlow.run_upvote_flow float_of_str w cfg h) = (h ++ t)%list /\
    disciplined (clicks t) = true.
Proof.
  revert h. change (spec (fun _ c => disciplined c = true)
                      (VoteFlow.run_upvote_flow float_of_str w cfg)).
  unfold VoteFlow.run_upvote_flow.
  pose (P := fun c : list element => disciplined c = true).
  assert (P0 : P []) by reflexivity.
  apply (quiet_bind P P0); [|intros l].
  { eapply traces_weaken; [apply idle_silent | apply setup_idle]. }
  apply (then_quiet P); [|intros; apply traces_ret].
  apply (try_quiet P).
  - unfold VoteFlow.steps.
    apply (quiet_bind P P0); [|intros _].
    { unfold VoteFlow.check_before. btrace.
      eapply traces_weaken; [apply away_silent | apply check_streak_traces]. }
    apply (then_quiet P); [apply vote_disciplined |intros _].
    unfold VoteFlow.check_after. btrace.
    eapply traces_weaken; [apply away_silent | apply check_streak_traces].
  - unfold VoteFlow.on_error. btrace.
  - eapply traces_weaken; [apply idle_silent | apply teardown_idle].
Qed.

(** X15.  In every world the post whose link the flow reads is one of the first
    three vote buttons that the listing shows. *)
Theorem X15_top_three_choice (cfg : config) :
  traces (fun a => picks_top_three a = true)
    (VoteFlow.run_upvote_flow float_of_str w cfg).
Proof.
  assert (I : forall a, idle a -> picks_top_three a = true).
  { intros a [T _]. now destruct a. }
  assert (A : forall u a, away_from_votes u a -> picks_top_three a = true).
  { intros u a [T _]. now destruct a. }
  unfold VoteFlow.run_upvote_flow.
  apply traces_bind; [|intros l].
  { eapply traces_weaken; [exact I | apply setup_idle]. }
  apply traces_bind; [|intros; apply traces_ret].
  apply traces_try.
  - unfold VoteFlow.steps.
    apply traces_bind; [|intros _; apply traces_bind; [|intros _]].
    + unfold VoteFlow.check_before. btrace.
      eapply traces_weaken; [apply A | apply check_streak_traces].
    + apply vote_picks.
    + unfold VoteFlow.check_after. btrace.
      eapply traces_weaken; [apply A | apply check_streak_traces].
  - unfold VoteFlow.on_error. btrace.
  - eapply traces_weaken; [exact I | apply teardown_idle].
Qed.

(** X17.  When the guarded block itself returns false it has just closed the
    context, and the [finally] block closes it again. *)
Theorem X17_early_exit_closes_twice (cfg : config) (l : locals)
    (h h0 h1 : history) :
  VoteFlow.setup float_of_str w cfg h = (Val l, h0) ->
  VoteFlow.steps w cfg l h0 = (Ret false, h1) ->
  exists h1' t,
    h1 = (h1' ++ [AContextClose])%list /\
    snd (VoteFlow.run_upvote_flow float_of_str w cfg h)
    = (h1' ++ [AContextClose; ALog DEBUG "Closing context and browser";
               AContextClose] ++ t)%list.
Proof.
  intros S B.
  destruct (steps_closed w cfg l h0 h1 B) as (h1' & ->).
  destruct (run_after_steps float_of_str w cfg l h h0 _ _ S B)
    as (f & t & Td & _ & _ & _ & R).
  rewrite R. cbn [snd handled] in *. exists h1'.
  revert Td. unfold VoteFlow.teardown, bind, log, emit, call, pure.
  destruct (returns w _ AContextClose).
  - destruct (browser l).
    + intros Td. injection Td as _ Td. exists [ABrowserClose].
      rewrite <- Td. now rewrite <- !app_assoc.
    + intros Td. injection Td as _ Td. exists [].
      rewrite <- Td. now rewrite <- !app_assoc.
  - intros Td. injection Td as _ Td. exists [].
    rewrite <- Td. now rewrite <- !app_assoc.
Qed.

(** X18.  When closing the context raises in the [finally] block, the exception
    leaves the flow, whatever the guarded block did, and the browser is not
    closed. *)
Theorem X18_failing_close_escapes (cfg : config) (l : locals)
    (h h0 h1 : history) (o : outcome unit) :
  VoteFlow.setup float_of_str w cfg h = (Val l, h0) ->
  VoteFlow.steps w cfg l h0 = (o, h1) ->
  returns w (handled o h1 ++ [ALog DEBUG "Closing context and browser"])%list
    AContextClose = false ->
  VoteFlow.run_upvote_flow float_of_str w cfg h
  = (Exc, (handled o h1 ++ [ALog DEBUG "Closing context and browser";
                            AContextClose])%list).
Proof.
  intros S B C.
  destruct (run_after_steps float_of_str w cfg l h h0 _ _ S B)
    as (f & t & Td & _ & _ & _ & R).
  rewrite R. revert Td.
  unfold VoteFlow.teardown, bind, log, emit, call. rewrite C.
  intros Td. injection Td as <- Td. rewrite <- Td.
  now rewrite <- !app_assoc.
Qed.

(** X11.  A cookie file that exists but cannot be loaded makes the flow raise
    right after the browser and its context are created: nothing closes
    them. *)
Theorem X11_unreadable_cookie_file_escapes (cfg : config) (p : fspath)
    (h : history) :
  get_subreddits cfg <> [] ->
  VoteFlow.cookies_path w cfg = Some p ->
  fs_exists w p = true ->
  (forall h', fst (read_cookies float_of_str w p h') = Exc) ->
  (forall h', returns w h' ALaunch = true) ->
  (forall h', returns w h' ANewContext = true) ->
  VoteFlow.run_upvote_flow float_of_str w cfg h
  = (Exc,
     (h ++ [ALog INFO "Starting upvote flow";
            ALog INFO "Auth: using cookies file %s (our own window)";
            ALaunch; ANewContext])%list).
Proof.
  intros G P X R L N.
  unfold VoteFlow.run_upvote_flow, VoteFlow.setup.
  destruct (get_subreddits cfg) as [|s subs]; [congruence|]. cbn [is_nil].
  unfold VoteFlow.open_session. rewrite P, X.
  unfold VoteFlow.auth_cookies_file, bind, log, emit, call.
  rewrite L, N.
  match goal with
  | |- context [read_cookies float_of_str w p ?hh] =>
      pose proof (R hh) as F;
      pose proof (read_cookies_same float_of_str w p hh) as Sd;
      destruct (read_cookies float_of_str w p hh) as [o h']
  end.
  cbn [fst snd] in F, Sd. subst o h'. now rewrite <- !app_assoc.
Qed.

End RunExtras.

(** ** Further properties: the status page and the scheduler *)

Module SchedulerFacts.

Import PyStr Config Run StreakDetector Numeral Scheduler.
Import PyStrFacts MoreStrFacts NumeralFacts RunFacts.
Local Open Scope flow_scope.









Section World.

Variable float_of_str : string -> option spec_float.
Variable w : world.

(** Polls that are not due only sleep. *)
Lemma loop_waits (cfg : config) (hour minute : Z) (clock : list tm) :
  forall h,
    (forall now, In now clock -> due hour minute now = false) ->
    loop float_of_str w cfg hour minute clock h
    = (Val tt,
       (h ++ repeat (ASleep (Millis 30000)) (List.length clock))%list).
Proof.
  induction clock as [|now later IH]; intros h D.
  - cbn. now rewrite app_nil_r.
  - cbn [loop]. unfold poll. rewrite (D now (or_introl eq_refl)).
    unfold bind at 1 2, pure, sleep, emit.
    rewrite IH by (intros n I; apply D; now right).
    cbn [List.length repeat]. now rewrite <- app_assoc.
Qed.

Lemma main_scheduled (cfg : config) (la : launch) (clock : list tm)
    (s : string) (hour minute : Z) (h : history) :
  cfg_test_mode cfg = false -> cfg_run_now la = false ->
  cfg_run_time la = Some s -> parse_run_time s = Ok (hour, minute) ->
  main float_of_str w cfg la clock h
  = loop float_of_str w cfg hour minute clock (h ++ banner)%list.
Proof.
  intros T N R P. unfold main. rewrite T, N, R, P.
  unfold lift, bind, pure, log, emit, banner. cbn [fst snd].
  now rewrite <- !app_assoc.
Qed.

End World.

End SchedulerFacts.

Section StatusExtras.

Import PyStr Config Run StreakDetector Numeral Trace.
Import PyStrFacts MoreStrFacts NumeralFacts RunFacts SchedulerFacts.
Local Open Scope flow_scope.

Variable w : world.

(** X20.  The line of the standalone check and the verdict of the gating check
    agree: the line says reached exactly when the verdict is true. *)
Theorem X20_status_line_agrees (src alt : string) :
  reached_today src alt = true <->
  status_line src alt
  = ALog INFO "Streak status: Reached today (fire). You're good.".
Proof.
  unfold reached_today, status_line.
  destruct (contains "fire-faded" src || contains "not been reached" (lower alt));
    destruct (contains "fire.png" src || contains "has been reached" (lower alt));
    cbn; split; intros E; try reflexivity; discriminate E.
Qed.


End StatusExtras.

Section SchedulerExtras.

Import PyStr Config Run StreakDetector Session Numeral Trace Scheduler.
Import PyStrFacts MoreStrFacts NumeralFacts RunFacts SchedulerFacts.
Local Open Scope flow_scope.

Variable float_of_str : string -> option spec_float.
Variable w : world.



(** X26.  Until a reading of the clock matches the run time the scheduler only
    sleeps, thirty seconds after each reading. *)
Theorem X26_scheduler_waits (cfg : config) (la : launch) (clock : list tm)
    (s : string) (hour minute : Z) (h : history) :
  cfg_test_mode cfg = false -> cfg_run_now la = false ->
  cfg_run_time la = Some s -> parse_run_time s = Ok (hour, minute) ->
  (forall now, In now clock -> due hour minute now = false) ->
  main float_of_str w cfg la clock h
  = (Val tt,
     (h ++ banner
        ++ repeat (ASleep (Millis 30000)) (List.length clock))%list).
Proof.
  intros T N R P D.
  rewrite (main_scheduled float_of_str w cfg la clock s hour minute h T N R P).
  rewrite (loop_waits float_of_str w cfg hour minute clock _ D).
  now rewrite <- app_assoc.
Qed.

(** X27.  A run time that parses but names no minute of the day, such as 24:00 or
    9:60, is accepted without a complaint and never starts the flow. *)
Theorem X27_off_dial_never_runs (cfg : config) (la : launch) (clock : list tm)
    (s : string) (hour minute : Z) (h : history) :
  cfg_test_mode cfg = false -> cfg_run_now la = false ->
  cfg_run_time la = Some s -> parse_run_time s = Ok (hour, minute) ->
  on_the_dial {| tm_hour := hour; tm_min := minute |} = false ->
  forallb on_the_dial clock = true ->
  main float_of_str w cfg la clock h
  = (Val tt,
     (h ++ banner
        ++ repeat (ASleep (Millis 30000)) (List.length clock))%list).
Proof.
  intros T N R P O C.
  rewrite (main_scheduled float_of_str w cfg la clock s hour minute h T N R P).
  rewrite (loop_waits float_of_str w cfg hour minute clock); [now rewrite <- app_assoc|].
  intros now I. rewrite forallb_forall in C. specialize (C now I).
  unfold on_the_dial, due in *. cbn [tm_hour tm_min] in O.
  destruct (Z.eqb_spec (tm_hour now) hour) as [Eh|]; [|reflexivity].
  destruct (Z.eqb_spec (tm_min now) minute) as [Em|]; [|reflexivity].
  rewrite Eh, Em in C. congruence.
Qed.

(** X28.  An exception that leaves the flow at the scheduled minute leaves [main]
    too: the later readings of the clock are never made. *)
Theorem X28_crash_stops_scheduler (cfg : config) (la : launch) (now : tm)
    (later : list tm) (s : string) (hour minute : Z) (h h' : history) :
  cfg_test_mode cfg = false -> cfg_run_now la = false ->
  cfg_run_time la = Some s -> parse_run_time s = Ok (hour, minute) ->
  due hour minute now = true ->
  VoteFlow.run_upvote_flow float_of_str w cfg
    (h ++ banner
       ++ [ALog INFO "Scheduled time reached - starting upvote flow"])%list
  = (Exc, h') ->
  main float_of_str w cfg la (now :: later) h = (Exc, h').
Proof.
  intros T N R P D X.
  rewrite (main_scheduled float_of_str w cfg la _ s hour minute h T N R P).
  cbn [loop]. unfold poll. rewrite D.
  unfold bind, log, emit, discard. rewrite <- app_assoc. now rewrite X.
Qed.

(** X29.  Whatever verdict the run at the scheduled minute returns, the scheduler
    goes on in the same way: it sleeps 65 s, then 30 s, and starts no other
    run while no later reading matches the run time. *)
Theorem X29_run_verdict_dropped (cfg : config) (la : launch) (now : tm)
    (later : list tm) (s : string) (hour minute : Z) (h h' : history)
    (b : bool) :
  cfg_test_mode cfg = false -> cfg_run_now la = false ->
  cfg_run_time la = Some s -> parse_run_time s = Ok (hour, minute) ->
  due hour minute now = true ->
  VoteFlow.run_upvote_flow float_of_str w cfg
    (h ++ banner
       ++ [ALog INFO "Scheduled time reached - starting upvote flow"])%list
  = (Ret b, h') ->
  (forall n, In n later -> due hour minute n = false) ->
  main float_of_str w cfg la (now :: later) h
  = (Val tt,
     (h' ++ [ALog DEBUG "Sleeping 65s to avoid re-running in same minute";
             ASleep (Millis 65000); ASleep (Millis 30000)]
         ++ repeat (ASleep (Millis 30000)) (List.length later))%list).
Proof.
  intros T N R P D X L.
  rewrite (main_scheduled float_of_str w cfg la _ s hour minute h T N R P).
  cbn [loop]. unfold poll. rewrite D.
  unfold bind, log, sleep, emit, discard. rewrite <- app_assoc, X.
  rewrite (loop_waits float_of_str w cfg hour minute later _ L).
  now rewrite <- !app_assoc.
Qed.

End SchedulerExtras.

Section MoreWitnesses.

Import PyStr PyVal PyPath Config CookieNormalizer Run StreakDetector Session.
Import Numeral Scheduler Trace Trace2 Scenario MoreScenario.

Lemma X1_witness :
  get_subreddits padded_config = ["python"; "rust"] /\
  strip "rust" = "rust".
Proof.
  split; [reflexivity|].
  apply (X1_get_subreddits_stripped padded_config "rust").
  right. left. reflexivity.
Defined.

Lemma X2_witness :
  get_subreddits blank_list_config = [].
Proof.
  apply (X2_get_subreddits_list_shadows blank_list_config [""] eq_refl).
  - discriminate.
  - repeat constructor.
Defined.

Lemma X5_witness :
  Forall (fun k => contains "reddit.com" (domain k) = true)
    (load_cookies_from_netscape_file [reddit_line] "reddit.com").
Proof.
  apply Forall_forall. intros k I.
  exact (proj2 X5_file_cookies_match_filter [reddit_line] "reddit.com" k I).
Defined.


Lemma X6_witness :
  match json_cookie no_float "reddit.com" session_entry with
  | Ok (Some k) => expires k = None
  | _ => False
  end.
Proof.
  destruct (json_cookie no_float "reddit.com" session_entry) as [[k|]|e] eqn:E;
    try (vm_compute in E; discriminate E).
  destruct (X6_json_session_has_no_expiry no_float "reddit.com" session_entry
              k E) as (S & _).
  apply (S (PBool true)); reflexivity.
Defined.

Lemma X7_witness :
  exists err,
    load_cookies_from_json no_float
      (PList [json_entry "lax"; PStr "token_v2"]) "reddit.com" = Raise err.
Proof.
  apply (X7_json_bad_entry_raises no_float
           (PList [json_entry "lax"; PStr "token_v2"]) "reddit.com"
           (PStr "token_v2")).
  - right. left. reflexivity.
  - intros d E. discriminate E.
Defined.

Lemma X3_witness :
  fst (get_user_urls base_config)
  = "https://www.reddit.com/user/someone/achievements/category/3/".
Proof.
  destruct (X3_user_urls_precedence base_config) as (_ & D & _).
  apply D; [reflexivity | discriminate].
Defined.

Lemma X10_witness :
  VoteFlow.run_upvote_flow no_float calm empty_config []
  = (Ret false, [ALog ERROR "No subreddit(s) in config."]).
Proof.
  exact (X10_no_subreddit_aborts no_float calm empty_config [] eq_refl).
Defined.

Lemma X21_witness :
  fst (StandaloneCheck.run_streak_check no_float calm anonymous_config [])
  = Ret false.
Proof.
  now rewrite (X21_no_status_url_aborts no_float calm anonymous_config [] eq_refl).
Defined.

Lemma X23_witness :
  fst (StandaloneCheck.run_streak_check no_float calm base_config [])
  = Ret true.
Proof.
  destruct (X23_standalone_check_verdict no_float calm base_config []
              (snd (StandaloneCheck.open_session no_float calm base_config []))
              (snd (StandaloneCheck.report calm (fst (get_user_urls base_config))
                      (snd (StandaloneCheck.open_session no_float calm
                              base_config [])
                       ++ [ASetDefaultTimeout 20000])%list))
              true (Val tt)) as (_ & E).
  - reflexivity.
  - vm_compute. reflexivity.
  - reflexivity.
  - vm_compute. reflexivity.
  - intros; reflexivity.
  - intros; reflexivity.
  - rewrite E. reflexivity.
Defined.

Lemma X12_witness :
  VoteFlow.check_before lit test_config (locals_of lit test_config)
    (h_setup lit test_config)
  = (Val tt,
     (snd (before_check lit test_config) ++ days_line (Some 5%Z)
      ++ [ALog INFO "Streak already reached today; test_mode: doing upvote anyway."])%list).
Proof.
  apply (proj2 (X12_test_mode_never_skips lit test_config
                  (locals_of lit test_config) (h_setup lit test_config)
                  eq_refl)).
  - vm_compute. reflexivity.
  - vm_compute. reflexivity.
Defined.

Lemma X13_witness :
  exists o tr,
    VoteFlow.run_upvote_flow no_float blind base_config [] = (o, tr) /\
    Forall (away_from_votes (streak_url (locals_of blind base_config))) tr /\
    o <> Ret true /\
    ((forall h, returns blind h AContextClose = true) ->
     (forall h, returns blind h ABrowserClose = true) ->
     o = Ret false).
Proof.
  apply (X13_failed_gate_aborts no_float blind base_config
           (locals_of blind base_config) (h_setup blind base_config)
           (snd (before_check blind base_config))).
  - vm_compute. reflexivity.
  - vm_compute. reflexivity.
  - vm_compute. reflexivity.
Defined.

Lemma X14_witness :
  traces no_status (VoteFlow.run_upvote_flow no_float calm anonymous_config).
Proof.
  apply (X14_no_status_url_no_check no_float calm anonymous_config). reflexivity.
Defined.

Lemma X17_witness :
  exists h1' t,
    snd (VoteFlow.steps no_buttons base_config
           (locals_of no_buttons base_config) (h_setup no_buttons base_config))
    = (h1' ++ [AContextClose])%list /\
    snd (VoteFlow.run_upvote_flow no_float no_buttons base_config [])
    = (h1' ++ [AContextClose; ALog DEBUG "Closing context and browser";
               AContextClose] ++ t)%list.
Proof.
  apply (X17_early_exit_closes_twice no_float no_buttons base_config
           (locals_of no_buttons base_config) []
           (h_setup no_buttons base_config)).
  - vm_compute. reflexivity.
  - vm_compute. reflexivity.
Defined.

Lemma X18_witness :
  fst (VoteFlow.run_upvote_flow no_float stuck_context base_config []) = Exc /\
  existsb (fun a => match a with ABrowserClose => true | _ => false end)
    (snd (VoteFlow.run_upvote_flow no_float stuck_context base_config []))
  = false.
Proof.
  rewrite (X18_failing_close_escapes no_float stuck_context base_config
             (locals_of stuck_context base_config) []
             (h_setup stuck_context base_config)
             (snd (VoteFlow.steps stuck_context base_config
                     (locals_of stuck_context base_config)
                     (h_setup stuck_context base_config)))
             (Val tt)).
  - split; [reflexivity | vm_compute; reflexivity].
  - vm_compute. reflexivity.
  - vm_compute. reflexivity.
  - reflexivity.
Defined.

Lemma X11_witness :
  VoteFlow.run_upvote_flow no_float broken_file file_config []
  = (Exc,
     [ALog INFO "Starting upvote flow";
      ALog INFO "Auth: using cookies file %s (our own window)";
      ALaunch; ANewContext]).
Proof.
  apply (X11_unreadable_cookie_file_escapes no_float broken_file file_config
           {| anchored := true; parts := ["opt"; "streakbot"; "cookies.json"] |}
           []).
  - discriminate.
  - reflexivity.
  - reflexivity.
  - intros h'. reflexivity.
  - intros h'. reflexivity.
  - intros h'. reflexivity.
Defined.




Lemma X26_witness :
  main no_float calm base_config (at_time "09:00")
    [o_clock 8 59; o_clock 9 1] []
  = (Val tt,
     (banner ++ [ASleep (Millis 30000); ASleep (Millis 30000)])%list).
Proof.
  apply (X26_scheduler_waits no_float calm base_config (at_time "09:00")
           [o_clock 8 59; o_clock 9 1] "09:00" 9 0 []).
  - reflexivity.
  - reflexivity.
  - reflexivity.
  - reflexivity.
  - intros now [<-|[<-|[]]]; reflexivity.
Defined.

Lemma X27_witness :
  main no_float calm base_config (at_time "24:00")
    [o_clock 0 0; o_clock 23 59] []
  = (Val tt,
     (banner ++ [ASleep (Millis 30000); ASleep (Millis 30000)])%list).
Proof.
  apply (X27_off_dial_never_runs no_float calm base_config (at_time "24:00")
           [o_clock 0 0; o_clock 23 59] "24:00" 24 0 []); reflexivity.
Defined.

Lemma X28_witness :
  main no_float broken_file file_config (at_time "09:00")
    [o_clock 9 0; o_clock 9 0] []
  = (Exc,
     snd (VoteFlow.run_upvote_flow no_float broken_file file_config h_due)).
Proof.
  apply (X28_crash_stops_scheduler no_float broken_file file_config
           (at_time "09:00") (o_clock 9 0) [o_clock 9 0] "09:00" 9 0 []).
  - reflexivity.
  - reflexivity.
  - reflexivity.
  - reflexivity.
  - reflexivity.
  - vm_compute. reflexivity.
Defined.

Lemma X29_witness :
  main no_float no_buttons base_config (at_time "09:00")
    [o_clock 9 0; o_clock 9 2] []
  = (Val tt,
     (snd (VoteFlow.run_upvote_flow no_float no_buttons base_config h_due)
      ++ [ALog DEBUG "Sleeping 65s to avoid re-running in same minute";
          ASleep (Millis 65000); ASleep (Millis 30000);
          ASleep (Millis 30000)])%list).
Proof.
  apply (X29_run_verdict_dropped no_float no_buttons base_config
           (at_time "09:00") (o_clock 9 0) [o_clock 9 2] "09:00" 9 0 []
           (snd (VoteFlow.run_upvote_flow no_float no_buttons base_config
                   h_due)) false).
  - reflexivity.
  - reflexivity.
  - reflexivity.
  - reflexivity.
  - reflexivity.
  - vm_compute. reflexivity.
  - intros n [<-|[]]. reflexivity.
Defined.

End MoreWitnesses.
